(** * Speech service of the restaurant kiosk backend

    Shallow embedding of [python_service/services/speech_service.py]
    ([SpeechService]): model lifecycle ([initialize], [cleanup],
    [get_health_status]), the transcription pipeline with its staging file
    and confidence heuristic, and the synthesis pipeline with its silence
    fallback, speed adjustment and WAV encoding.

    Effects are modelled with a small state-and-exception monad over a
    [World] that holds the service object, the files present on disk and a
    log of the externally visible actions (model loads, inference calls,
    accelerator cache flushes).  The behaviour of the external engines
    (Whisper, Kokoro, librosa, the file system) is an explicit environment
    argument, so each theorem quantifies over every engine behaviour. *)

From Stdlib Require Import List String Bool ZArith QArith Qround Qabs Qpower Setoid Reals Lia Lra.
Import ListNotations.

Open Scope string_scope.

(** ** Python values and exceptions *)

Inductive exc :=
| RuntimeError (msg : string)
| OSError
| EngineError
| KeyError (key : string)
| ValueError
| ZeroDivisionError
| OverflowError.

Inductive outcome (A : Type) :=
| Ok (a : A)
| Raise (e : exc).
Arguments Ok {A} a.
Arguments Raise {A} e.

(** Opaque model handles: a loaded Whisper model or Kokoro pipeline. *)
Definition Handle := nat.

Record SpeechService := mkService {
  whisper_model : option Handle;
  kokoro_pipeline : option Handle;
  _initialized : bool
}.

(** [SpeechService.__init__]. *)
Definition new_service : SpeechService :=
  {| whisper_model := None; kokoro_pipeline := None; _initialized := false |}.

(** Externally visible actions. *)
Inductive event :=
| LoadWhisper (variant : string)
| LoadKokoro (lang_code : string)
| RunTranscribe (path : string) (language : option string)
| RunSynthesize (text voice : string)
| EmptyCudaCache.

Record World := mkWorld {
  svc : SpeechService;
  files : list string;      (* paths present on persistent storage *)
  log : list event          (* actions performed, most recent last *)
}.

(** ** The monad *)

Definition PyM (A : Type) := World -> World * outcome A.

Definition ret {A} (a : A) : PyM A := fun w => (w, Ok a).
Definition raise {A} (e : exc) : PyM A := fun w => (w, Raise e).
Definition bind {A B} (m : PyM A) (k : A -> PyM B) : PyM B :=
  fun w => match m w with
           | (w', Ok a) => k a w'
           | (w', Raise e) => (w', Raise e)
           end.

Notation "x <- m ;; k" := (bind m (fun x => k))
  (at level 61, m at next level, right associativity).
Notation "m ;;; k" := (bind m (fun _ => k))
  (at level 61, right associativity).

Definition get_svc : PyM SpeechService := fun w => (w, Ok (svc w)).
Definition modify_svc (f : SpeechService -> SpeechService) : PyM unit :=
  fun w => (mkWorld (f (svc w)) (files w) (log w), Ok tt).
Definition emit (ev : event) : PyM unit :=
  fun w => (mkWorld (svc w) (files w) (log w ++ [ev]), Ok tt).

(** [try: body except Exception as e: handler(e)]. *)
Definition try_except {A} (body : PyM A) (handler : exc -> PyM A) : PyM A :=
  fun w => match body w with
           | (w', Ok a) => (w', Ok a)
           | (w', Raise e) => handler e w'
           end.

(** [try: body finally: fin]: [fin] runs on both exits; an exception raised
    by [fin] replaces the body's outcome. *)
Definition try_finally {A} (body : PyM A) (fin : PyM unit) : PyM A :=
  fun w => match body w with
           | (w', r) =>
               match fin w' with
               | (w'', Ok _) => (w'', r)
               | (w'', Raise e) => (w'', Raise e)
               end
           end.

Definition set_whisper_model (h : option Handle) : PyM unit :=
  modify_svc (fun s => mkService h (kokoro_pipeline s) (_initialized s)).
Definition set_kokoro_pipeline (h : option Handle) : PyM unit :=
  modify_svc (fun s => mkService (whisper_model s) h (_initialized s)).
Definition set_initialized (b : bool) : PyM unit :=
  modify_svc (fun s => mkService (whisper_model s) (kokoro_pipeline s) b).

Definition is_none {A} (o : option A) : bool :=
  match o with None => true | Some _ => false end.

(** ** Model lifecycle *)

(** Behaviour of the model loaders: [None] means the loader raises. *)
Record InitEnv := mkInitEnv {
  whisper_load : string -> option Handle;   (* whisper.load_model *)
  kokoro_load : string -> option Handle     (* KPipeline(lang_code=...) *)
}.

Definition load_whisper (env : InitEnv) (variant : string) : PyM Handle :=
  emit (LoadWhisper variant) ;;;
  match whisper_load env variant with
  | Some h => ret h
  | None => raise EngineError
  end.

Definition load_kokoro (env : InitEnv) (lang_code : string) : PyM Handle :=
  emit (LoadKokoro lang_code) ;;;
  match kokoro_load env lang_code with
  | Some h => ret h
  | None => raise EngineError
  end.

(** [SpeechService.initialize]; the [except ...: raise] blocks only log. *)
Definition initialize (env : InitEnv) : PyM unit :=
  s <- get_svc ;;
  if _initialized s then ret tt
  else
    h1 <- load_whisper env "turbo" ;;
    set_whisper_model (Some h1) ;;;
    h2 <- load_kokoro env "a" ;;
    set_kokoro_pipeline (Some h2) ;;;
    set_initialized true.

Record HealthStatus := mkHealth {
  hs_whisper : bool;
  hs_kokoro : bool;
  hs_initialized : bool
}.

Definition health (s : SpeechService) : HealthStatus :=
  {| hs_whisper := negb (is_none (whisper_model s));
     hs_kokoro := negb (is_none (kokoro_pipeline s));
     hs_initialized := _initialized s |}.

(** [SpeechService.get_health_status]. *)
Definition get_health_status : PyM HealthStatus :=
  s <- get_svc ;; ret (health s).

(** [SpeechService.cleanup]; [cuda_available] is [torch.cuda.is_available()]. *)
Definition cleanup (cuda_available : bool) : PyM unit :=
  s <- get_svc ;;
  (if negb (is_none (whisper_model s)) then set_whisper_model None else ret tt) ;;;
  s' <- get_svc ;;
  (if negb (is_none (kokoro_pipeline s')) then set_kokoro_pipeline None else ret tt) ;;;
  (if cuda_available then emit EmptyCudaCache else ret tt) ;;;
  set_initialized false.

(** ** Transcription pipeline *)

Open Scope R_scope.

(** A Whisper segment dictionary; [None] means the key is absent. *)
Record Segment := mkSegment { avg_logprob : option R }.

(** The dictionary returned by [whisper_model.transcribe]. *)
Record WhisperResult := mkWhisperResult {
  wr_text : option string;
  wr_language : option string;
  wr_duration : option R;
  wr_segments : option (list Segment)   (* [None]: no ["segments"] key *)
}.

Definition dict_get {A} (o : option A) (dflt : A) : A :=
  match o with Some a => a | None => dflt end.

(** Python's [min(a, b)] and [max(a, b)]: the first argument is kept unless
    the second one is strictly smaller (resp. greater). *)
Definition py_min (a b : R) : R := if Rlt_dec b a then b else a.
Definition py_max (a b : R) : R := if Rlt_dec a b then b else a.

(** [sum(xs)] starts from [0] and adds from the left. *)
Definition py_sum (xs : list R) : R := fold_left Rplus xs 0.

(** [SpeechService._calculate_confidence]. *)
Definition _calculate_confidence (result : WhisperResult) : R :=
  match wr_segments result with
  | Some segments =>
      match segments with
      | [] => 0.8
      | _ :: _ =>
          let probs := map (fun seg => dict_get (avg_logprob seg) 0) segments in
          match probs with
          | [] => 0.8
          | _ :: _ =>
              let avg_logprob := py_sum probs / INR (List.length probs) in
              py_max 0 (py_min 1 (exp avg_logprob))
          end
      end
  | None => 0.8
  end.

(** The formula as the specification words it:
    [clamp(exp(mean(avg_logprob)), 0.0, 1.0)]. *)
Definition spec_mean (xs : list R) : R := fold_right Rplus 0 xs / INR (List.length xs).
Definition spec_clamp (x lo hi : R) : R := Rmax lo (Rmin hi x).

Close Scope R_scope.

(** Python's [str.isspace] on one character (code points up to 255): the
    characters [str.strip()] removes. *)
Definition py_isspace (c : Ascii.ascii) : bool :=
  let n := Ascii.nat_of_ascii c in
  (Nat.leb 9 n && Nat.leb n 13 || Nat.leb 28 n && Nat.leb n 32 ||
   Nat.eqb n 133 || Nat.eqb n 160)%bool.

(** [str.strip()]: whitespace removed at both ends. *)

Fixpoint lstrip (s : string) : string :=
  match s with
  | EmptyString => EmptyString
  | String c t => if py_isspace c then lstrip t else s
  end.

Definition strip (s : string) : string :=
  string_of_list_ascii
    (rev (list_ascii_of_string (lstrip
      (string_of_list_ascii (rev (list_ascii_of_string (lstrip s))))))).

Record TranscriptionResult := mkTranscription {
  tr_text : string;
  tr_language : string;
  tr_confidence : R;
  tr_duration : R
}.

(** Behaviour of the file system and of the Whisper engine during one
    [transcribe_audio] call. *)
Record STTEnv := mkSTTEnv {
  temp_name : string;                 (* name chosen by NamedTemporaryFile *)
  create_ok : bool;                   (* creating the file succeeds *)
  write_ok : bool;                    (* write/flush/close of the bytes succeed *)
  stt_result : option WhisperResult;  (* [None]: transcribe raises *)
  unlink_ok : bool                    (* [os.unlink] of the file succeeds *)
}.

(** [tempfile.NamedTemporaryFile(suffix=".wav", delete=False)]: creates the
    file on disk. *)
Definition named_temporary_file (env : STTEnv) : PyM string :=
  if create_ok env then
    fun w => (mkWorld (svc w) (temp_name env :: files w) (log w), Ok (temp_name env))
  else raise OSError.

(** [temp_file.write(audio_data)] and the closing of the [with] block; with
    [delete=False] the file stays on disk whether or not the write fails. *)
Definition temp_file_write (env : STTEnv) (audio_data : list Z) : PyM unit :=
  if write_ok env then ret tt else raise OSError.

Definition os_path_exists (p : string) : PyM bool :=
  fun w => (w, Ok (if in_dec string_dec p (files w) then true else false)).

(** [os.unlink(p)]; when it raises (permission denied, file held open by
    another process, ...) the file stays. *)
Definition os_unlink (env : STTEnv) (p : string) : PyM unit :=
  if unlink_ok env then
    fun w => (mkWorld (svc w) (remove string_dec p (files w)) (log w), Ok tt)
  else raise OSError.

(** The [finally] clause of [transcribe_audio]:
    [if os.path.exists(p): os.unlink(p)]. *)
Definition remove_temp_file (env : STTEnv) (p : string) : PyM unit :=
  b <- os_path_exists p ;;
  if b then os_unlink env p else ret tt.

(** [SpeechService._transcribe_sync], run through [run_in_executor]. *)
Definition _transcribe_sync (env : STTEnv) (audio_path language : string)
  : PyM WhisperResult :=
  let options := if String.eqb language "auto" then None else Some language in
  emit (RunTranscribe audio_path options) ;;;
  match stt_result env with
  | Some r => ret r
  | None => raise EngineError
  end.

(** [SpeechService.transcribe_audio].  The wrapped message drops the
    [str(e)] suffix. *)
Definition transcribe_audio (env : STTEnv) (audio_data : list Z) (language : string)
  : PyM TranscriptionResult :=
  s <- get_svc ;;
  if negb (_initialized s) || is_none (whisper_model s) then
    raise (RuntimeError "Whisper model not initialized")
  else
    try_except
      ( temp_file_path <- named_temporary_file env ;;
        temp_file_write env audio_data ;;;
        try_finally
          ( result <- _transcribe_sync env temp_file_path language ;;
            match wr_text result with
            | None => raise (KeyError "text")
            | Some txt =>
                ret {| tr_text := strip txt;
                       tr_language := dict_get (wr_language result) "unknown";
                       tr_confidence := _calculate_confidence result;
                       tr_duration := dict_get (wr_duration result) 0%R |}
            end )
          (remove_temp_file env temp_file_path) )
      (fun _ => raise (RuntimeError "Transcription failed")).

(** ** Synthesis pipeline *)

Open Scope Q_scope.

(** Behaviour of the Kokoro engine and of librosa during one
    [synthesize_speech] call. *)
Record TTSEnv := mkTTSEnv {
  (* the audio arrays yielded by the generator; [None]: the engine raises *)
  tts_segments : option (list (list Q));
  (* [librosa.effects.time_stretch]; [None]: [import librosa] raises
     ImportError *)
  librosa_time_stretch : option (list Q -> Q -> outcome (list Q))
}.

(** [np.zeros(24000, dtype=np.float32)]. *)
Definition silence : list Q := List.repeat 0 24000%nat.

(** [SpeechService._synthesize_sync], run through [run_in_executor]. *)
Definition _synthesize_sync (env : TTSEnv) (text voice : string) : PyM (list Q) :=
  emit (RunSynthesize text voice) ;;;
  match tts_segments env with
  | None => raise EngineError
  | Some audio_segments =>
      match audio_segments with
      | _ :: _ => ret (List.concat audio_segments)   (* np.concatenate *)
      | [] => ret silence                          (* 1 second of silence *)
      end
  end.

Definition Qltb (a b : Q) : bool := negb (Qle_bool b a).

(** *** Binary64 arithmetic

    A Python float is an IEEE 754 binary64 number; a finite float is
    represented by its exact rational value. *)

(** Rounding to the nearest integer, ties to even (C's [lrint] in the
    default rounding mode). *)
Definition round_half_even (q : Q) : Z :=
  let f := Qfloor q in
  let frac := q - inject_Z f in
  if Qltb frac (1 # 2) then f
  else if Qltb (1 # 2) frac then (f + 1)%Z
  else if Z.even f then f else (f + 1)%Z.

(** [2 ^ e] for an integer exponent. *)
Definition pow2 (e : Z) : Q := Qpower (inject_Z 2) e.

(** For [q > 0], the exponent [e] with [2 ^ e <= q < 2 ^ (e + 1)]. *)
Definition Qlog2 (q : Q) : Z :=
  let e := (Z.log2 (Qnum q) - Z.log2 (Zpos (Qden q)))%Z in
  if Qltb q (pow2 e) then (e - 1)%Z else e.

(** The binary64 value nearest to [q], ties to even, as IEEE 754 rounds the
    exact result of a division: 53 significant bits, a least exponent of
    [-1074] (subnormals); [None] when the result overflows to an
    infinity. *)
Definition round_binary64 (q : Q) : option Q :=
  if Qeq_bool q 0 then Some 0 else
  let a := Qabs q in
  let ulp := Z.max (Qlog2 a - 52) (-1074) in
  let r := inject_Z (round_half_even (a * pow2 (- ulp))) * pow2 ulp in
  if Qle_bool (pow2 1024) r then None
  else Some (if Qltb q 0 then - r else r).

(** [q] is the value of a binary64 number. *)
Definition is_double (q : Q) : bool :=
  match round_binary64 q with Some r => Qeq_bool r q | None => false end.

(** [x / y] on floats: [ZeroDivisionError] for a zero divisor, otherwise
    the rounded quotient, [None] standing for an infinite result. *)
Definition float_div (x y : Q) : outcome (option Q) :=
  if Qeq_bool y 0 then Raise ZeroDivisionError else Ok (round_binary64 (x / y)).

(** Python's [int(x)] on a float: truncation towards zero. *)
Definition py_int (q : Q) : Z := Z.quot (Qnum q) (Zpos (Qden q)).

(** [int(x)] on a float, [None] standing for an infinity:
    [OverflowError: cannot convert float infinity to integer]. *)
Definition py_int_float (x : option Q) : outcome Z :=
  match x with Some q => Ok (py_int q) | None => Raise OverflowError end.

(** The largest [npy_intp] on a 64-bit platform; [np.repeat] converts its
    count to it and raises [OverflowError] beyond. *)
Definition int64_max : Z := (2 ^ 63 - 1)%Z.

(** [audio[::k]] for [k >= 1]: the elements at indices [0, k, 2k, ...];
    [c] counts the elements still to skip. *)
Fixpoint take_every_aux {A} (k c : nat) (l : list A) : list A :=
  match l with
  | [] => []
  | x :: t =>
      match c with
      | O => x :: take_every_aux k (k - 1) t
      | S c' => take_every_aux k c' t
      end
  end.

Definition take_every {A} (k : nat) (l : list A) : list A := take_every_aux k 0 l.

(** Basic slicing [audio[::step]] of a numpy array. *)
Definition np_slice_step (audio : list Q) (step : Z) : outcome (list Q) :=
  match step with
  | Z0 => Raise ValueError
  | Zpos p => Ok (take_every (Pos.to_nat p) audio)
  | Zneg p => Ok (take_every (Pos.to_nat p) (List.rev audio))
  end.

(** [np.repeat(audio, r)]: every element repeated [r] times in place. *)
Definition np_repeat (audio : list Q) (r : Z) : outcome (list Q) :=
  if (r <? 0)%Z then Raise ValueError
  else if (int64_max <? r)%Z then Raise OverflowError
  else Ok (flat_map (fun x => List.repeat x (Z.to_nat r)) audio).

(** [SpeechService._adjust_speed]; [speed] is a finite float.  [1.0 / speed]
    is the rounded float quotient; [int] of an infinite quotient raises
    [OverflowError].  A failure to allocate the array of [np.repeat] is not
    modelled. *)
Definition _adjust_speed (env : TTSEnv) (audio : list Q) (speed : Q) : outcome (list Q) :=
  if Qeq_bool speed 1 then Ok audio
  else
    match librosa_time_stretch env with
    | Some time_stretch => time_stretch audio speed
    | None =>
        if Qltb 1 speed then
          let step := py_int speed in
          np_slice_step audio step
        else
          match float_div 1 speed with
          | Raise e => Raise e
          | Ok inv =>
              match py_int_float inv with
              | Raise e => Raise e
              | Ok rep => np_repeat audio rep
              end
          end
    end.

(** The fallback resampling as the specification words it: keep every
    [floor(speed)]-th sample, or repeat each sample [floor(1/speed)] times. *)
Definition spec_keep_every (audio : list Q) (k : Z) : list Q :=
  map snd (filter (fun ix => Nat.eqb (Nat.modulo (fst ix) (Z.to_nat k)) 0)
                  (combine (seq 0 (List.length audio)) audio)).

Definition spec_repeat_each (audio : list Q) (k : Z) : list Q :=
  List.concat (map (fun x => List.repeat x (Z.to_nat k)) audio).

(** *** WAV encoding

    [soundfile.write(buffer, audio, sample_rate, format='WAV')] with the
    default PCM_16 subtype, as libsndfile writes it: a 44-byte RIFF header
    followed by the samples as little-endian 16-bit integers. *)

Definition le_bytes (n : nat) (v : Z) : list Z :=
  (fix go (n : nat) (v : Z) : list Z :=
     match n with
     | O => []
     | S n' => (v mod 256)%Z :: go n' (v / 256)%Z
     end) n v.

(** [psf_lrint], i.e. C's [lrint]: outside the range of a 64-bit [long] it
    gives, on x86-64, the "integer indefinite" value [LONG_MIN]. *)
Definition c_lrint (q : Q) : Z :=
  let v := round_half_even q in
  if (v <? - 2 ^ 63)%Z || (2 ^ 63 - 1 <? v)%Z then (- 2 ^ 63)%Z else v.

(** The C conversion of a [long] to [short]: the low 16 bits, read in two's
    complement. *)
Definition to_short (v : Z) : Z := ((v + 32768) mod 65536 - 32768)%Z.

(** One sample as libsndfile's [d2s_array] / [f2s_array] convert it when
    clipping is off (soundfile does not turn it on): [lrint(x * 0x8000)]
    stored in a [short].  The product by a power of two is exact. *)
Definition pcm16 (x : Q) : Z := to_short (c_lrint (x * inject_Z 32768)).

Definition wav_header (nsamples : nat) (sample_rate : Z) : list Z :=
  let data_size := (2 * Z.of_nat nsamples)%Z in
  [82; 73; 70; 70]%Z ++ le_bytes 4 (36 + data_size) ++ [87; 65; 86; 69]%Z ++
  [102; 109; 116; 32]%Z ++ le_bytes 4 16 ++ le_bytes 2 1 ++ le_bytes 2 1 ++
  le_bytes 4 sample_rate ++ le_bytes 4 (2 * sample_rate) ++
  le_bytes 2 2 ++ le_bytes 2 16 ++
  [100; 97; 116; 97]%Z ++ le_bytes 4 data_size.

(** [SpeechService._audio_to_wav_bytes]. *)
Definition _audio_to_wav_bytes (audio : list Q) (sample_rate : Z) : list Z :=
  wav_header (List.length audio) sample_rate ++
  flat_map (fun x => le_bytes 2 (pcm16 x)) audio.

Definition lift {A} (o : outcome A) : PyM A :=
  match o with Ok a => ret a | Raise e => raise e end.

(** [SpeechService.synthesize_speech]; [pitch] is accepted and unused.  The
    wrapped message drops the [str(e)] suffix. *)
Definition synthesize_speech (env : TTSEnv) (text voice : string) (speed pitch : Q)
  : PyM (list Z) :=
  s <- get_svc ;;
  if negb (_initialized s) || is_none (kokoro_pipeline s) then
    raise (RuntimeError "Kokoro pipeline not initialized")
  else
    try_except
      ( audio_data <- _synthesize_sync env text voice ;;
        audio_data' <- (if negb (Qeq_bool speed 1)
                        then lift (_adjust_speed env audio_data speed)
                        else ret audio_data) ;;
        ret (_audio_to_wav_bytes audio_data' 24000) )
      (fun _ => raise (RuntimeError "Speech synthesis failed")).

Close Scope Q_scope.

(** ** Requests served after startup *)

Inductive request :=
| ReqTranscribe (env : STTEnv) (audio_data : list Z) (language : string)
| ReqSynthesize (env : TTSEnv) (text voice : string) (speed pitch : Q).

Inductive response :=
| RespTranscribe (r : outcome TranscriptionResult)
| RespSynthesize (r : outcome (list Z)).

Definition handle_request (rq : request) (w : World) : World * response :=
  match rq with
  | ReqTranscribe env a l =>
      let '(w', r) := transcribe_audio env a l w in (w', RespTranscribe r)
  | ReqSynthesize env t v sp p =>
      let '(w', r) := synthesize_speech env t v sp p w in (w', RespSynthesize r)
  end.

(** A sequence of calls; each failure is reported and serving goes on. *)
Fixpoint serve (rqs : list request) (w : World) : World * list response :=
  match rqs with
  | [] => (w, [])
  | rq :: rest =>
      let '(w1, r) := handle_request rq w in
      let '(w2, rs) := serve rest w1 in
      (w2, r :: rs)
  end.

(** ** Whole-service operation sequences *)

(** The operations the application performs on the service object: the
    startup [initialize], the shutdown [cleanup], and requests. *)
Inductive op :=
| OpInitialize (env : InitEnv)
| OpCleanup (cuda_available : bool)
| OpRequest (rq : request).

Definition run_op (o : op) (w : World) : World :=
  match o with
  | OpInitialize env => fst (initialize env w)
  | OpCleanup c => fst (cleanup c w)
  | OpRequest rq => fst (handle_request rq w)
  end.

Fixpoint run_ops (os : list op) (w : World) : World :=
  match os with
  | [] => w
  | o :: rest => run_ops rest (run_op o w)
  end.

(** ** Reading back a PCM_16 WAV file *)






(** ** The HTTP layer ([python_service/main.py]) *)

Inductive http_response :=
| HTTPError (status_code : Z) (detail : string)
| RequestValidationError                       (* FastAPI's 422 answer *)
| TranscriptionJSON (text language : string) (confidence duration : R)
| WavResponse (content : list Z)
| HealthJSON (status : string) (services : HealthStatus) (version : string).

(** Exceptions met inside an endpoint's [try] block. *)
Inductive endpoint_exc :=
| ServiceExc (e : exc)
| HTTPExc (status_code : Z) (detail : string)
| ResponseValidationExc.

Definition digit_char (d : Z) : Ascii.ascii := Ascii.ascii_of_nat (48 + Z.to_nat d).

Fixpoint decimal_aux (fuel : nat) (n : Z) (acc : string) : string :=
  match fuel with
  | O => acc
  | S f =>
      let acc' := String (digit_char (n mod 10)) acc in
      if (n <? 10)%Z then acc' else decimal_aux f (n / 10) acc'
  end.

(** [str(n)] for a non-negative integer. *)
Definition decimal (n : Z) : string := decimal_aux 20 n "".

(** [str(e)]: a RuntimeError prints its message, an HTTPException prints
    ["<status_code>: <detail>"]. *)
Definition str_exc (e : endpoint_exc) : string :=
  match e with
  | ServiceExc (RuntimeError m) => m
  | ServiceExc _ => ""
  | HTTPExc code d => decimal code ++ ": " ++ d
  | ResponseValidationExc => "validation error for TranscriptionResponse"
  end.

(** [GET /api/v1/health]; [service_set] is [speech_service is not None]. *)
Definition health_check (service_set : bool) : PyM http_response :=
  fun w =>
    let body : World * (endpoint_exc + http_response) :=
      if negb service_set then (w, inl (HTTPExc 503 "Speech service not initialized"))
      else
        let status := health (svc w) in
        (w, inr (HealthJSON (if hs_whisper status && hs_kokoro status
                             then "healthy" else "degraded")%bool
                            status "1.0.0"))
    in
    match body with
    | (w', inl _) => (w', Ok (HTTPError 500 "Health check failed"))
    | (w', inr resp) => (w', Ok resp)
    end.

(** [str.startswith]. *)
Definition startswith (s pre : string) : bool := String.prefix pre s.

(** [TranscriptionResponse(...)]: [confidence] in [[0, 1]], [duration >= 0]. *)
Definition transcription_response (r : TranscriptionResult) : endpoint_exc + http_response :=
  if Rle_dec 0 (tr_confidence r) then
  if Rle_dec (tr_confidence r) 1 then
  if Rle_dec 0 (tr_duration r) then
    inr (TranscriptionJSON (tr_text r) (tr_language r) (tr_confidence r) (tr_duration r))
  else inl ResponseValidationExc
  else inl ResponseValidationExc
  else inl ResponseValidationExc.

(** The endpoint function [transcribe_audio] of
    [POST /api/v1/speech/transcribe], called once FastAPI has parsed the
    multipart form into its arguments; [content_type] is
    [audio.content_type] and [audio_data] the bytes [await audio.read()]
    returns.  Requests FastAPI rejects while parsing the form (a missing
    file field, a malformed body) never reach it. *)
Definition transcribe_endpoint (service_set : bool) (env : STTEnv)
    (content_type : option string) (audio_data : list Z) (language : string)
  : PyM http_response :=
  fun w =>
    if negb service_set then (w, Ok (HTTPError 503 "Speech service not available"))
    else
      let body : World * (endpoint_exc + http_response) :=
        match content_type with
        | Some ct =>
            if startswith ct "audio/" then
              match transcribe_audio env audio_data language w with
              | (w', Ok r) => (w', transcription_response r)
              | (w', Raise e) => (w', inl (ServiceExc e))
              end
            else (w, inl (HTTPExc 400 "Invalid audio file format"))
        | None => (w, inl (HTTPExc 400 "Invalid audio file format"))
        end
      in
      match body with
      | (w', inl e) => (w', Ok (HTTPError 500 ("Transcription failed: " ++ str_exc e)))
      | (w', inr resp) => (w', Ok resp)
      end.

(** [len(text.strip()) == 0]: every character is whitespace. *)
Definition strip_is_empty (text : string) : bool :=
  forallb py_isspace (list_ascii_of_string text).

Record SynthesisRequest := mkSynthesisRequest {
  sr_text : string;
  sr_voice : string;
  sr_speed : Q;
  sr_pitch : Q
}.

(** Pydantic's validation of [SynthesisRequest]: [1 <= len(text) <= 1000],
    [0.5 <= speed <= 2.0], [0.5 <= pitch <= 2.0]. *)
Definition validate_synthesis_request (text voice : string) (speed pitch : Q)
  : option SynthesisRequest :=
  if (Nat.leb 1 (String.length text) && Nat.leb (String.length text) 1000 &&
      Qle_bool (1 # 2) speed && Qle_bool speed 2 &&
      Qle_bool (1 # 2) pitch && Qle_bool pitch 2)%bool
  then Some (mkSynthesisRequest text voice speed pitch)
  else None.

(** The body of [POST /api/v1/speech/synthesize] once the request is
    validated. *)
Definition synthesize_handler (service_set : bool) (env : TTSEnv) (request : SynthesisRequest)
  : PyM http_response :=
  fun w =>
    if negb service_set then (w, Ok (HTTPError 503 "Speech service not available"))
    else
      let text := sr_text request in
      let body : World * (endpoint_exc + http_response) :=
        if (String.eqb text "" || strip_is_empty text)%bool then
          (w, inl (HTTPExc 400 "Text cannot be empty"))
        else if Nat.ltb 1000 (String.length text) then
          (w, inl (HTTPExc 400 "Text too long. Maximum length: 1000 characters"))
        else
          match synthesize_speech env text (sr_voice request) (sr_speed request)
                                  (sr_pitch request) w with
          | (w', Ok audio_data) => (w', inr (WavResponse audio_data))
          | (w', Raise e) => (w', inl (ServiceExc e))
          end
      in
      match body with
      | (w', inl e) => (w', Ok (HTTPError 500 ("Speech synthesis failed: " ++ str_exc e)))
      | (w', inr resp) => (w', Ok resp)
      end.

(** The route [POST /api/v1/speech/synthesize] from the decoded JSON
    fields on: Pydantic's validation of [SynthesisRequest], then the
    endpoint function.  Bodies FastAPI cannot decode as JSON are answered
    before this point and are not modelled. *)
Definition synthesize_endpoint (service_set : bool) (env : TTSEnv)
    (text voice : string) (speed pitch : Q) : PyM http_response :=
  match validate_synthesis_request text voice speed pitch with
  | None => ret RequestValidationError
  | Some request => synthesize_handler service_set env request
  end.

(** What the service answers when a pipeline refuses to run. *)
Definition refused (rq : request) : response :=
  match rq with
  | ReqTranscribe _ _ _ => RespTranscribe (Raise (RuntimeError "Whisper model not initialized"))
  | ReqSynthesize _ _ _ _ _ => RespSynthesize (Raise (RuntimeError "Kokoro pipeline not initialized"))
  end.

(** Segments with a missing [avg_logprob] given the value [0.0]. *)
Definition fill_missing (result : WhisperResult) : WhisperResult :=
  {| wr_text := wr_text result;
     wr_language := wr_language result;
     wr_duration := wr_duration result;
     wr_segments :=
       option_map (map (fun seg => mkSegment (Some (dict_get (avg_logprob seg) 0%R))))
                  (wr_segments result) |}.

(** Number of bytes returned by a synthesis call. *)
Definition output_size (o : outcome (list Z)) : N :=
  match o with Ok b => N.of_nat (List.length b) | Raise _ => 0%N end.

(** A computation leaves a component of the world unchanged. *)
Definition preserves {A B} (proj : World -> B) (m : PyM A) : Prop :=
  forall w, proj (fst (m w)) = proj w.

(** The relation between the handles and the flag that the service keeps. *)
Definition handles_consistent (s : SpeechService) : Prop :=
  (_initialized s = true <-> kokoro_pipeline s <> None) /\
  (_initialized s = true -> whisper_model s <> None).

(** ** Concrete inputs *)

Definition w_fresh : World := mkWorld new_service [] [].
Definition w_ready : World := mkWorld (mkService (Some 1%nat) (Some 2%nat) true) [] [].

(** Whisper loads, Kokoro raises. *)
Definition env_kokoro_fails : InitEnv :=
  mkInitEnv (fun _ => Some 1%nat) (fun _ => None).
Definition env_loads_ok : InitEnv :=
  mkInitEnv (fun _ => Some 1%nat) (fun _ => Some 2%nat).

Definition stt_result_plain : WhisperResult :=
  mkWhisperResult (Some " hello ") (Some "en") (Some 1%R) None.

(** The write of the audio bytes into the staging file fails (disk full). *)
Definition env_write_fails : STTEnv :=
  mkSTTEnv "/tmp/tmp5x2k9q.wav" true false (Some stt_result_plain) true.

(** Kokoro yields no segment and librosa is not installed. *)
Definition env_tts_empty : TTSEnv := mkTTSEnv (Some []) None.
Definition env_tts_hello : TTSEnv := mkTTSEnv (Some [[1 # 2; 0]; [-1 # 4]]%Q) None.

(** The world after [initialize] with [env_kokoro_fails] from [w_fresh]. *)
Definition w_partial : World :=
  mkWorld (mkService (Some 1%nat) None false) [] [LoadWhisper "turbo"; LoadKokoro "a"].

(** The world after a successful [initialize] from [w_fresh]. *)
Definition w_inited : World :=
  mkWorld (mkService (Some 1%nat) (Some 2%nat) true) [] [LoadWhisper "turbo"; LoadKokoro "a"].

Definition result_two_segments : WhisperResult :=
  mkWhisperResult (Some " two words ") (Some "en") (Some 2%R)
    (Some [mkSegment (Some (-1)%R); mkSegment (Some (-3)%R)]).

Definition result_no_logprob : WhisperResult :=
  mkWhisperResult (Some "") None None (Some [mkSegment None; mkSegment None]).

(** Kokoro yields no segment and [librosa.effects.time_stretch] raises. *)
Definition env_tts_empty_stretch_fails : TTSEnv :=
  mkTTSEnv (Some []) (Some (fun _ _ => Raise ValueError)).

(** Whisper raises on load. *)
Definition env_whisper_fails : InitEnv :=
  mkInitEnv (fun _ => None) (fun _ => Some 2%nat).

(** Staging succeeds and Whisper returns [result_two_segments]. *)
Definition env_transcribe_ok : STTEnv :=
  mkSTTEnv "/tmp/tmpq81n0c.wav" true true (Some result_two_segments) true.

Definition env_unlink_fails : STTEnv :=
  mkSTTEnv "/tmp/tmpq81n0c.wav" true true (Some result_two_segments) false.

Definition wav_magic : list Z := [82; 73; 70; 70]%Z.

(** A text of 1001 characters. *)
Definition long_text : string := string_of_list_ascii (List.repeat (Ascii.ascii_of_nat 97) 1001).

(** ** Model lifecycle *)

Ltac run_pym :=
  repeat (unfold initialize, cleanup, load_whisper, load_kokoro, set_whisper_model,
            set_kokoro_pipeline, set_initialized, modify_svc, emit, get_svc,
            bind, ret, raise in *; simpl in *).

Lemma transcribe_refused (env : STTEnv) (a : list Z) (l : string) (w : World) :
  _initialized (svc w) = false \/ whisper_model (svc w) = None ->
  transcribe_audio env a l w = (w, Raise (RuntimeError "Whisper model not initialized")).
Proof.
  intros H. unfold transcribe_audio, bind, get_svc, raise.
  destruct H as [H | H]; rewrite H; simpl; [reflexivity|].
  rewrite orb_true_r. reflexivity.
Qed.

Lemma synthesize_refused (env : TTSEnv) t v sp p (w : World) :
  _initialized (svc w) = false \/ kokoro_pipeline (svc w) = None ->
  synthesize_speech env t v sp p w = (w, Raise (RuntimeError "Kokoro pipeline not initialized")).
Proof.
  intros H. unfold synthesize_speech, bind, get_svc, raise.
  destruct H as [H | H]; rewrite H; simpl; [reflexivity|].
  rewrite orb_true_r. reflexivity.
Qed.

Lemma serve_refused (rqs : list request) (w : World) :
  _initialized (svc w) = false -> serve rqs w = (w, map refused rqs).
Proof.
  intros H. induction rqs as [|rq rqs IH]; simpl; [reflexivity|].
  destruct rq; simpl.
  - rewrite transcribe_refused by (left; exact H). rewrite IH. reflexivity.
  - rewrite synthesize_refused by (left; exact H). rewrite IH. reflexivity.
Qed.

Lemma initialize_ok_initialized (env : InitEnv) (w w1 : World) :
  initialize env w = (w1, Ok tt) -> _initialized (svc w1) = true.
Proof.
  destruct w as [[wm km i] f l]. run_pym.
  destruct i; [intros H; inversion H; reflexivity|].
  destruct (whisper_load env "turbo"); run_pym; [|discriminate].
  destruct (kokoro_load env "a"); run_pym; [|discriminate].
  intros H; inversion H; reflexivity.
Qed.

(** C4: a partial initialization failure (Whisper loads, Kokoro raises)
    leaves [_initialized] false; every later [transcribe_audio] or
    [synthesize_speech] call on the resulting state, with any arguments and
    any engine behaviour, raises its "not initialized" error and returns the
    state unchanged (no inference is logged, no file is created), and so
    does every sequence of such calls. *)
Theorem partial_init_failure_unusable (env : InitEnv) (w w1 : World) (h : Handle)
    (r : outcome unit) :
  _initialized (svc w) = false ->
  whisper_load env "turbo" = Some h ->
  kokoro_load env "a" = None ->
  initialize env w = (w1, r) ->
  r = Raise EngineError /\ _initialized (svc w1) = false /\
  hs_initialized (health (svc w1)) = false /\
  (forall env' a l, transcribe_audio env' a l w1 =
     (w1, Raise (RuntimeError "Whisper model not initialized"))) /\
  (forall env' t v sp p, synthesize_speech env' t v sp p w1 =
     (w1, Raise (RuntimeError "Kokoro pipeline not initialized"))) /\
  forall rqs, serve rqs w1 = (w1, map refused rqs).
Proof.
  intros Hi Hw Hk Hrun.
  destruct w as [[wm km i] f l]; simpl in Hi; subst i.
  run_pym. rewrite Hw, Hk in Hrun. run_pym.
  inversion Hrun; subst; clear Hrun.
  split; [reflexivity|]. split; [reflexivity|]. split; [reflexivity|].
  split; [intros; apply transcribe_refused; left; reflexivity|].
  split; [intros; apply synthesize_refused; left; reflexivity|].
  intros rqs. apply serve_refused. reflexivity.
Qed.

(** C7: [initialize] on an initialized service returns at once with the
    world unchanged (no load is logged); after one successful call a second
    call succeeds, loads nothing and leaves the health status as it was. *)
Theorem initialize_idempotent (env1 env2 : InitEnv) (w w1 : World) :
  (_initialized (svc w) = true -> initialize env1 w = (w, Ok tt)) /\
  (initialize env1 w = (w1, Ok tt) ->
   initialize env2 w1 = (w1, Ok tt) /\
   health (svc (fst (initialize env2 w1))) = health (svc w1)).
Proof.
  split.
  - intros Hi. destruct w as [[wm km i] f l]; simpl in Hi; subst i. reflexivity.
  - intros H1. apply initialize_ok_initialized in H1.
    assert (H2 : initialize env2 w1 = (w1, Ok tt)).
    { destruct w1 as [[wm km i] f l]; simpl in H1; subst i. reflexivity. }
    rewrite H2. split; reflexivity.
Qed.

(** C8: [cleanup] never raises, in any state; it clears both handles and
    leaves the health status all false. *)
Theorem cleanup_safe (cuda_available : bool) (w : World) :
  exists w', cleanup cuda_available w = (w', Ok tt) /\
    whisper_model (svc w') = None /\ kokoro_pipeline (svc w') = None /\
    health (svc w') = mkHealth false false false.
Proof.
  destruct w as [[wm km i] f l].
  destruct wm, km, cuda_available; run_pym; eexists; repeat split.
Qed.

(** C9: before a successful initialization, [transcribe_audio] and
    [synthesize_speech] raise at once: the world (service, files on disk,
    log of inference calls) is returned unchanged. *)
Theorem calls_before_init_raise (w : World) :
  ((_initialized (svc w) = false \/ whisper_model (svc w) = None) ->
   forall env audio_data language,
     transcribe_audio env audio_data language w =
       (w, Raise (RuntimeError "Whisper model not initialized"))) /\
  ((_initialized (svc w) = false \/ kokoro_pipeline (svc w) = None) ->
   forall env text voice speed pitch,
     synthesize_speech env text voice speed pitch w =
       (w, Raise (RuntimeError "Kokoro pipeline not initialized"))).
Proof.
  split; intros H *; [apply transcribe_refused | apply synthesize_refused]; exact H.
Qed.

(** ** Transcription *)

(** C1 (defect): when writing the audio bytes into the staging file fails,
    [transcribe_audio] raises but the file created by
    [NamedTemporaryFile(delete=False)] stays on disk: the write happens
    before the [try ... finally] that removes it. *)
Theorem transcribe_write_failure_leaves_staging_file :
  transcribe_audio env_write_fails [82; 73; 70; 70]%Z "auto" w_ready =
    (mkWorld (svc w_ready) ["/tmp/tmp5x2k9q.wav"] [],
     Raise (RuntimeError "Transcription failed")) /\
  In "/tmp/tmp5x2k9q.wav" (files (fst (transcribe_audio env_write_fails [82; 73; 70; 70]%Z "auto" w_ready))).
Proof. split; [reflexivity | simpl; left; reflexivity]. Qed.

(** Once the staging file has been written and [os.unlink] succeeds, the
    [finally] clause removes it on every exit of the inference step. *)
Lemma remove_temp_file_spec (env : STTEnv) (p : string) (w : World) :
  unlink_ok env = true ->
  snd (remove_temp_file env p w) = Ok tt /\ ~ In p (files (fst (remove_temp_file env p w))).
Proof.
  intros Hu. unfold remove_temp_file, os_path_exists, os_unlink, bind, ret.
  rewrite Hu.
  destruct (in_dec string_dec p (files w)) as [Hin|Hin]; simpl.
  - split; [reflexivity|]. apply remove_In.
  - split; [reflexivity|]. exact Hin.
Qed.

Lemma try_finally_remove {A} (env : STTEnv) (body : PyM A) (p : string) (w : World) :
  unlink_ok env = true ->
  ~ In p (files (fst (try_finally body (remove_temp_file env p) w))).
Proof.
  intros Hu. unfold try_finally. destruct (body w) as [w1 r1].
  pose proof (remove_temp_file_spec env p w1 Hu) as [Hok Hgone].
  destruct (remove_temp_file env p w1) as [w2 o2]; simpl in *; subst o2. exact Hgone.
Qed.

(** When the audio bytes were written to a staging file under a fresh
    name and [os.unlink] succeeds, the [finally] clause removes it: whatever
    the transcription returns, the staging file is gone afterwards. *)
Lemma transcribe_removes_written_staging_file (env : STTEnv) a l (w w' : World) r :
  write_ok env = true ->
  unlink_ok env = true ->
  ~ In (temp_name env) (files w) ->
  transcribe_audio env a l w = (w', r) ->
  ~ In (temp_name env) (files w').
Proof.
  intros Hwr Hu Hnot Hrun.
  unfold transcribe_audio, bind, get_svc in Hrun.
  destruct (negb (_initialized (svc w)) || is_none (whisper_model (svc w))).
  { unfold raise in Hrun. inversion Hrun; subst. exact Hnot. }
  unfold try_except, named_temporary_file, temp_file_write in Hrun.
  destruct (create_ok env).
  2:{ unfold raise in Hrun. inversion Hrun; subst. exact Hnot. }
  rewrite Hwr in Hrun. unfold ret in Hrun.
  match type of Hrun with
  | context [try_finally ?body (remove_temp_file env ?p) ?w0] =>
      pose proof (try_finally_remove env body p w0 Hu) as Hgone;
      destruct (try_finally body (remove_temp_file env p) w0) as [w2 o2]
  end.
  simpl in Hgone. destruct o2; unfold raise in Hrun; inversion Hrun; subst; exact Hgone.
Qed.

(** The other exit of the [finally] clause: when [os.unlink] raises, the
    exception replaces the result of the inference, [transcribe_audio]
    raises "Transcription failed", and the staging file stays on disk, even
    after a successful inference. *)
Theorem transcribe_unlink_failure_leaves_staging_file (env : STTEnv) a l (w : World) :
  _initialized (svc w) = true -> whisper_model (svc w) <> None ->
  create_ok env = true -> write_ok env = true -> unlink_ok env = false ->
  exists w', transcribe_audio env a l w = (w', Raise (RuntimeError "Transcription failed")) /\
    In (temp_name env) (files w').
Proof.
  intros Hi Hw Hc Hwr Hu.
  unfold transcribe_audio, bind at 1, get_svc. rewrite Hi.
  destruct (whisper_model (svc w)) as [h|]; [|contradiction]. cbn [negb is_none orb].
  unfold try_except, bind at 1, named_temporary_file. rewrite Hc.
  unfold bind at 1, temp_file_write. rewrite Hwr. unfold ret at 1.
  unfold try_finally.
  set (w0 := {| svc := svc w; files := temp_name env :: files w; log := log w |}).
  set (body := bind (_transcribe_sync env (temp_name env) l) _).
  assert (Hb : preserves files body).
  { unfold body, _transcribe_sync, preserves. intros w1.
    unfold bind, emit. destruct (stt_result env) as [res|]; simpl; [|reflexivity].
    destruct (wr_text res); reflexivity. }
  specialize (Hb w0). destruct (body w0) as [w1 r] eqn:E1. simpl in Hb.
  unfold remove_temp_file, os_path_exists, os_unlink, bind at 1.
  rewrite Hb. cbn [files w0].
  destruct (in_dec string_dec (temp_name env) (temp_name env :: files w)) as [_|Hn];
    [|exfalso; apply Hn; left; reflexivity].
  rewrite Hu. unfold raise. exists w1. split; [reflexivity|]. rewrite Hb. left; reflexivity.
Qed.

Open Scope R_scope.

Lemma py_clamp_range (x : R) : 0 <= py_max 0 (py_min 1 x) <= 1.
Proof.
  unfold py_max, py_min.
  destruct (Rlt_dec x 1); destruct (Rlt_dec 0 _); lra.
Qed.

Lemma py_clamp_spec (x : R) : py_max 0 (py_min 1 x) = spec_clamp x 0 1.
Proof.
  unfold py_max, py_min, spec_clamp, Rmax, Rmin.
  destruct (Rlt_dec x 1); destruct (Rle_dec 1 x); try lra;
  destruct (Rlt_dec 0 _); destruct (Rle_dec 0 _); lra.
Qed.

Lemma fold_left_Rplus (xs : list R) (a : R) :
  fold_left Rplus xs a = a + fold_right Rplus 0 xs.
Proof.
  revert a. induction xs as [|x xs IH]; intros a; simpl; [lra|].
  rewrite IH. lra.
Qed.

Lemma probs_of_values (segs : list Segment) (vals : list R) :
  map avg_logprob segs = map Some vals ->
  map (fun seg => dict_get (avg_logprob seg) 0) segs = vals.
Proof.
  revert vals. induction segs as [|sg segs IH]; intros [|v vals] H;
  simpl in H; try discriminate; [reflexivity|].
  inversion H as [[Hv Hr]]. simpl. rewrite Hv. simpl. f_equal. apply IH. exact Hr.
Qed.

Lemma calculate_confidence_range (result : WhisperResult) :
  0 <= _calculate_confidence result <= 1.
Proof.
  unfold _calculate_confidence.
  destruct (wr_segments result) as [[|sg segs]|]; try lra.
  simpl. apply py_clamp_range.
Qed.

(** C2: with per-segment log-probabilities the confidence is
    [clamp(exp(mean(avg_logprob)), 0, 1)]; with no segments it is [0.8];
    it always lies in [[0, 1]]. *)
Theorem calculate_confidence_spec (result : WhisperResult) :
  (0 <= _calculate_confidence result <= 1) /\
  ((wr_segments result = None \/ wr_segments result = Some []) ->
   _calculate_confidence result = 0.8) /\
  (forall segs vals,
     wr_segments result = Some segs -> segs <> [] ->
     map avg_logprob segs = map Some vals ->
     _calculate_confidence result = spec_clamp (exp (spec_mean vals)) 0 1).
Proof.
  split; [apply calculate_confidence_range|]. split.
  - unfold _calculate_confidence. intros [H|H]; rewrite H; reflexivity.
  - intros segs vals Hs Hne Hv. unfold _calculate_confidence. rewrite Hs.
    destruct segs as [|sg segs']; [contradiction|].
    pose proof (probs_of_values _ _ Hv) as Hp.
    cbv zeta. rewrite Hp.
    destruct vals as [|v vals']; [simpl in Hp; discriminate|].
    unfold py_sum, spec_mean. rewrite fold_left_Rplus, Rplus_0_l.
    apply py_clamp_spec.
Qed.

Lemma probs_all_missing (segs : list Segment) :
  Forall (fun sg => avg_logprob sg = None) segs ->
  map (fun seg => dict_get (avg_logprob seg) 0) segs = List.repeat 0 (List.length segs).
Proof.
  induction 1 as [|sg segs Hsg _ IH]; simpl; [reflexivity|].
  rewrite Hsg, IH. reflexivity.
Qed.

Lemma fold_right_repeat_zero (n : nat) : fold_right Rplus 0 (List.repeat 0 n) = 0.
Proof. induction n as [|n IH]; simpl; [reflexivity|]. rewrite IH. lra. Qed.

(** C10: a segment without [avg_logprob] counts as log-probability [0.0];
    when every segment of a non-empty list lacks it the confidence is [1.0]
    and not the [0.8] fallback. *)
Theorem missing_logprob_counts_as_zero (result : WhisperResult) :
  _calculate_confidence result = _calculate_confidence (fill_missing result) /\
  (forall segs,
     wr_segments result = Some segs -> segs <> [] ->
     Forall (fun sg => avg_logprob sg = None) segs ->
     _calculate_confidence result = 1).
Proof.
  split.
  - unfold _calculate_confidence, fill_missing; simpl.
    destruct (wr_segments result) as [[|sg segs]|]; simpl; [reflexivity| |reflexivity].
    rewrite map_map. simpl. reflexivity.
  - intros segs Hs Hne Hall. unfold _calculate_confidence. rewrite Hs.
    destruct segs as [|sg segs']; [contradiction|].
    cbv zeta. rewrite (probs_all_missing _ Hall). simpl List.repeat.
    unfold py_sum. rewrite fold_left_Rplus, Rplus_0_l.
    change (0 :: List.repeat 0 (List.length segs')) with (List.repeat 0 (S (List.length segs'))).
    rewrite fold_right_repeat_zero.
    unfold Rdiv. rewrite Rmult_0_l, exp_0.
    unfold py_max, py_min.
    destruct (Rlt_dec 1 1); [lra|]. destruct (Rlt_dec 0 1); lra.
Qed.

Close Scope R_scope.

(** ** Speed adjustment *)

Open Scope Q_scope.

Lemma take_every_aux_spec {A} (k c s : nat) (l : list A) :
  (0 < k)%nat -> (c < k)%nat -> ((s + c) mod k = 0)%nat ->
  take_every_aux k c l =
  map snd (filter (fun ix => Nat.eqb (Nat.modulo (fst ix) k) 0)
                  (combine (seq s (List.length l)) l)).
Proof.
  revert c s. induction l as [|x t IH]; intros c s Hk Hc Hs; [reflexivity|].
  simpl. destruct c as [|c'].
  - rewrite Nat.add_0_r in Hs. rewrite Hs. simpl. f_equal.
    apply IH; [exact Hk | lia |].
    replace (S s + (k - 1))%nat with (s + 1 * k)%nat by lia.
    rewrite Nat.Div0.mod_add. exact Hs.
  - assert (Hne : (s mod k <> 0)%nat).
    { intros H0. rewrite Nat.Div0.add_mod, H0, Nat.add_0_l, Nat.Div0.mod_mod,
        Nat.mod_small in Hs by lia. discriminate. }
    apply Nat.eqb_neq in Hne. rewrite Hne.
    apply IH; [exact Hk | lia |].
    replace (S s + c')%nat with (s + S c')%nat by lia. exact Hs.
Qed.

Lemma take_every_spec (audio : list Q) (k : nat) :
  (0 < k)%nat -> take_every k audio = spec_keep_every audio (Z.of_nat k).
Proof.
  intros Hk. unfold take_every, spec_keep_every. rewrite Nat2Z.id.
  apply take_every_aux_spec; [exact Hk | exact Hk | apply Nat.Div0.mod_0_l].
Qed.

Lemma py_int_Qfloor (q : Q) : (0 <= Qnum q)%Z -> py_int q = Qfloor q.
Proof.
  destruct q as [n d]; simpl; intros Hn. unfold py_int; simpl.
  apply Z.quot_div_nonneg; lia.
Qed.

Lemma Qnum_pos (q : Q) : 0 < q -> (0 < Qnum q)%Z.
Proof. destruct q as [n d]. unfold Qlt; simpl. lia. Qed.

Lemma Qnum_inv_pos (q : Q) : 0 < q -> (0 < Qnum (1 / q))%Z.
Proof.
  destruct q as [[|n|n] d]; unfold Qlt; simpl; intros H; lia.
Qed.

Lemma Qfloor_nonneg (q : Q) : (0 <= Qnum q)%Z -> (0 <= Qfloor q)%Z.
Proof. destruct q as [n d]; simpl; intros Hn. apply Z.div_pos; lia. Qed.

Lemma Qeq_bool_false_of_lt (a b : Q) : a < b -> Qeq_bool b a = false.
Proof.
  intros H. destruct (Qeq_bool b a) eqn:E; [|reflexivity].
  apply Qeq_bool_iff in E. rewrite E in H. exfalso. exact (Qlt_irrefl _ H).
Qed.

Lemma Qeq_bool_false_of_gt (a b : Q) : b < a -> Qeq_bool b a = false.
Proof.
  intros H. destruct (Qeq_bool b a) eqn:E; [|reflexivity].
  apply Qeq_bool_iff in E. rewrite E in H. exfalso. exact (Qlt_irrefl _ H).
Qed.

(** *** Binary64 rounding *)

Lemma Qltb_iff (a b : Q) : Qltb a b = true <-> a < b.
Proof.
  unfold Qltb. rewrite negb_true_iff. split.
  - intros H. apply Qnot_le_lt. intros H'. apply Qle_bool_iff in H'. congruence.
  - intros H. destruct (Qle_bool b a) eqn:E; [|reflexivity].
    apply Qle_bool_iff in E. exfalso. exact (Qlt_not_le _ _ H E).
Qed.

Lemma Qltb_false (a b : Q) : Qltb a b = false <-> b <= a.
Proof.
  unfold Qltb. rewrite negb_false_iff. apply Qle_bool_iff.
Qed.

Lemma Qltb_comp (a a' b b' : Q) : a == a' -> b == b' -> Qltb a b = Qltb a' b'.
Proof.
  intros Ha Hb. destruct (Qltb a' b') eqn:E.
  - apply Qltb_iff. apply Qltb_iff in E. rewrite Ha, Hb. exact E.
  - apply Qltb_false. apply Qltb_false in E. rewrite Ha, Hb. exact E.
Qed.

Lemma pow2_pos (e : Z) : 0 < pow2 e.
Proof. unfold pow2. apply Qpower_0_lt. reflexivity. Qed.

Lemma pow2_plus (a b : Z) : pow2 (a + b) == pow2 a * pow2 b.
Proof. unfold pow2. apply Qpower_plus. discriminate. Qed.

Lemma pow2_nat (n : Z) : (0 <= n)%Z -> pow2 n == inject_Z (2 ^ n).
Proof. intros H. unfold pow2. symmetry. apply Zpower_Qpower. exact H. Qed.

Lemma pow2_lt (a b : Z) : (a < b)%Z -> pow2 a < pow2 b.
Proof. intros H. unfold pow2. apply Qpower_lt_compat_l; [exact H | reflexivity]. Qed.

Lemma pow2_le (a b : Z) : (a <= b)%Z -> pow2 a <= pow2 b.
Proof. intros H. unfold pow2. apply Qpower_le_compat_l; [exact H | discriminate]. Qed.

Lemma Qlog2_bounds (n : Z) (d : positive) :
  (0 < n)%Z ->
  pow2 (Z.log2 n - Z.log2 (Zpos d) - 1) < n # d /\
  n # d < pow2 (Z.log2 n - Z.log2 (Zpos d) + 1).
Proof.
  intros Hn.
  set (a := Z.log2 n). set (b := Z.log2 (Zpos d)).
  destruct (Z.log2_spec n Hn) as [Ha1 Ha2].
  destruct (Z.log2_spec (Zpos d) eq_refl) as [Hb1 Hb2].
  fold a in Ha1, Ha2. fold b in Hb1, Hb2.
  assert (Ha0 : (0 <= a)%Z) by apply Z.log2_nonneg.
  assert (Hb0 : (0 <= b)%Z) by apply Z.log2_nonneg.
  rewrite Qmake_Qdiv.
  assert (Hd : 0 < inject_Z (Zpos d)) by reflexivity.
  split.
  - apply Qlt_shift_div_l; [exact Hd|].
    apply Qlt_le_trans with (pow2 (a - b - 1) * pow2 (Z.succ b)).
    + apply Qmult_lt_l; [apply pow2_pos|].
      rewrite pow2_nat by lia. rewrite <- Zlt_Qlt. exact Hb2.
    + rewrite <- pow2_plus. replace (a - b - 1 + Z.succ b)%Z with a by lia.
      rewrite pow2_nat by lia. rewrite <- Zle_Qle. exact Ha1.
  - apply Qlt_shift_div_r; [exact Hd|].
    apply Qlt_le_trans with (pow2 (Z.succ a)).
    + rewrite pow2_nat by lia. rewrite <- Zlt_Qlt. exact Ha2.
    + replace (Z.succ a) with (a - b + 1 + b)%Z by lia. rewrite pow2_plus.
      apply Qmult_le_l; [apply pow2_pos|].
      rewrite pow2_nat by lia. rewrite <- Zle_Qle. exact Hb1.
Qed.

Lemma Qlog2_spec (q : Q) : 0 < q -> pow2 (Qlog2 q) <= q /\ q < pow2 (Qlog2 q + 1).
Proof.
  destruct q as [n d]. intros Hq.
  assert (Hn : (0 < n)%Z) by (unfold Qlt in Hq; simpl in Hq; lia).
  destruct (Qlog2_bounds n d Hn) as [Hlo Hhi].
  unfold Qlog2. cbn [Qnum Qden].
  set (e := (Z.log2 n - Z.log2 (Zpos d))%Z) in *.
  destruct (Qltb (n # d) (pow2 e)) eqn:E.
  - apply Qltb_iff in E. split; [apply Qlt_le_weak; exact Hlo|].
    replace (e - 1 + 1)%Z with e by lia. exact E.
  - apply Qltb_false in E. split; [exact E | exact Hhi].
Qed.

Lemma Qlog2_unique (q : Q) (k : Z) :
  pow2 k <= q -> q < pow2 (k + 1) -> Qlog2 q = k.
Proof.
  intros H1 H2.
  assert (Hq : 0 < q) by (apply Qlt_le_trans with (pow2 k); [apply pow2_pos | exact H1]).
  destruct (Qlog2_spec q Hq) as [H3 H4].
  destruct (Z.lt_trichotomy (Qlog2 q) k) as [Hlt|[Heq|Hgt]]; [|exact Heq|].
  - exfalso. assert (pow2 (Qlog2 q + 1) <= pow2 k) by (apply pow2_le; lia).
    apply (Qlt_irrefl q). apply Qlt_le_trans with (pow2 (Qlog2 q + 1)); [exact H4|].
    apply Qle_trans with (pow2 k); assumption.
  - exfalso. assert (pow2 (k + 1) <= pow2 (Qlog2 q)) by (apply pow2_le; lia).
    apply (Qlt_irrefl q). apply Qlt_le_trans with (pow2 (k + 1)); [exact H2|].
    apply Qle_trans with (pow2 (Qlog2 q)); assumption.
Qed.

Lemma round_half_even_comp (p q : Q) : p == q -> round_half_even p = round_half_even q.
Proof.
  intros H. unfold round_half_even. rewrite (Qfloor_comp p q H).
  assert (Hm : p - inject_Z (Qfloor q) == q - inject_Z (Qfloor q))
    by (unfold Qminus; apply Qplus_comp; [exact H | reflexivity]).
  rewrite (Qltb_comp _ _ (1 # 2) (1 # 2) Hm (Qeq_refl _)).
  rewrite (Qltb_comp (1 # 2) (1 # 2) _ _ (Qeq_refl _) Hm).
  reflexivity.
Qed.

Lemma round_half_even_cases (q : Q) :
  round_half_even q = Qfloor q \/
  (round_half_even q = (Qfloor q + 1)%Z /\ inject_Z (Qfloor q) < q).
Proof.
  unfold round_half_even.
  destruct (Qltb (q - inject_Z (Qfloor q)) (1 # 2)) eqn:E1; [left; reflexivity|].
  apply Qltb_false in E1.
  assert (Hup : inject_Z (Qfloor q) < q).
  { apply Qlt_le_trans with (inject_Z (Qfloor q) + (1 # 2)).
    - rewrite <- (Qplus_0_r (inject_Z (Qfloor q))) at 1.
      apply Qplus_lt_r. reflexivity.
    - apply (Qplus_le_l _ _ (- inject_Z (Qfloor q))).
      setoid_replace (inject_Z (Qfloor q) + (1 # 2) + - inject_Z (Qfloor q)) with (1 # 2) by ring.
      exact E1. }
  destruct (Qltb _ _); [right; split; [reflexivity | exact Hup]|].
  destruct (Z.even _); [left | right; split; [reflexivity | exact Hup]]; reflexivity.
Qed.

Lemma round_half_even_ge (q : Q) (lo : Z) : inject_Z lo <= q -> (lo <= round_half_even q)%Z.
Proof.
  intros H. assert (Hf : (lo <= Qfloor q)%Z).
  { rewrite <- (Qfloor_Z lo). apply Qfloor_resp_le. exact H. }
  destruct (round_half_even_cases q) as [-> | [-> _]]; lia.
Qed.

Lemma round_half_even_le (q : Q) (hi : Z) : q <= inject_Z hi -> (round_half_even q <= hi)%Z.
Proof.
  intros H. assert (Hf : (Qfloor q <= hi)%Z).
  { rewrite <- (Qfloor_Z hi). apply Qfloor_resp_le. exact H. }
  destruct (round_half_even_cases q) as [-> | [-> Hup]]; [exact Hf|].
  assert (Qfloor q < hi)%Z; [|lia].
  rewrite Zlt_Qlt. apply Qlt_le_trans with q; assumption.
Qed.

Lemma round_half_even_Z (z : Z) : round_half_even (inject_Z z) = z.
Proof.
  apply Z.le_antisymm; [apply round_half_even_le | apply round_half_even_ge]; apply Qle_refl.
Qed.

Lemma round_binary64_pos (q : Q) (k : Z) :
  pow2 k <= q -> q < pow2 (k + 1) -> (-1022 <= k)%Z ->
  round_binary64 q =
    (let r := inject_Z (round_half_even (q * pow2 (52 - k))) * pow2 (k - 52) in
     if Qle_bool (pow2 1024) r then None else Some r).
Proof.
  intros H1 H2 Hk.
  assert (Hq : 0 < q) by (apply Qlt_le_trans with (pow2 k); [apply pow2_pos | exact H1]).
  unfold round_binary64.
  rewrite (Qeq_bool_false_of_lt 0 q Hq).
  destruct q as [n d].
  assert (Hn : (0 < n)%Z) by (unfold Qlt in Hq; simpl in Hq; lia).
  assert (Ha : Qabs (n # d) = n # d) by (simpl; rewrite Z.abs_eq by lia; reflexivity).
  rewrite Ha, (Qlog2_unique _ k H1 H2).
  replace (Z.max (k - 52) (-1074)) with (k - 52)%Z by lia.
  replace (- (k - 52))%Z with (52 - k)%Z by lia.
  cbv zeta.
  assert (Hs : Qltb (n # d) 0 = false) by (apply Qltb_false; apply Qlt_le_weak; exact Hq).
  rewrite Hs. reflexivity.
Qed.

Lemma Qfloor_unique (x : Q) (z : Z) :
  inject_Z z <= x -> x < inject_Z (z + 1) -> Qfloor x = z.
Proof.
  intros H1 H2. apply Z.le_antisymm.
  - assert (Qfloor x < z + 1)%Z; [|lia].
    rewrite Zlt_Qlt. apply Qle_lt_trans with x; [apply Qfloor_le | exact H2].
  - rewrite <- (Qfloor_Z z). apply Qfloor_resp_le. exact H1.
Qed.

Lemma round_binary64_range (q : Q) (k : Z) :
  pow2 k <= q -> q < pow2 (k + 1) -> (-1022 <= k <= 1022)%Z ->
  round_binary64 q =
    Some (inject_Z (round_half_even (q * pow2 (52 - k))) * pow2 (k - 52)) /\
  (2 ^ 52 <= round_half_even (q * pow2 (52 - k)) <= 2 ^ 53)%Z.
Proof.
  intros H1 H2 Hk.
  set (m := round_half_even (q * pow2 (52 - k))).
  assert (Hm : (2 ^ 52 <= m <= 2 ^ 53)%Z).
  { split.
    - apply round_half_even_ge. rewrite <- pow2_nat by lia.
      replace 52%Z with (k + (52 - k))%Z at 1 by lia. rewrite pow2_plus.
      apply Qmult_le_compat_r; [exact H1 | apply Qlt_le_weak, pow2_pos].
    - apply round_half_even_le. rewrite <- pow2_nat by lia.
      replace 53%Z with (k + 1 + (52 - k))%Z by lia. rewrite pow2_plus.
      apply Qlt_le_weak, Qmult_lt_compat_r; [apply pow2_pos | exact H2]. }
  split; [|exact Hm].
  rewrite (round_binary64_pos q k H1 H2 (proj1 Hk)). cbv zeta. fold m.
  assert (Hr : inject_Z m * pow2 (k - 52) < pow2 1024).
  { apply Qle_lt_trans with (pow2 (k + 1)); [|apply pow2_lt; lia].
    replace (k + 1)%Z with (53 + (k - 52))%Z by lia. rewrite pow2_plus.
    apply Qmult_le_compat_r; [|apply Qlt_le_weak, pow2_pos].
    rewrite pow2_nat by lia. rewrite <- Zle_Qle. lia. }
  destruct (Qle_bool (pow2 1024) (inject_Z m * pow2 (k - 52))) eqn:E; [|reflexivity].
  apply Qle_bool_iff in E. exfalso. exact (Qlt_not_le _ _ Hr E).
Qed.

Lemma round_binary64_nonneg (q r : Q) : 0 < q -> round_binary64 q = Some r -> 0 <= r.
Proof.
  intros Hq. unfold round_binary64.
  rewrite (Qeq_bool_false_of_lt 0 q Hq).
  assert (Hs : Qltb q 0 = false) by (apply Qltb_false; apply Qlt_le_weak; exact Hq).
  rewrite Hs. cbv zeta.
  set (u := Z.max (Qlog2 (Qabs q) - 52) (-1074)).
  assert (Hm : (0 <= round_half_even (Qabs q * pow2 (- u)))%Z).
  { apply round_half_even_ge. apply Qmult_le_0_compat.
    - apply Qabs_nonneg.
    - apply Qlt_le_weak, pow2_pos. }
  destruct (Qle_bool _ _); intros H; inversion H; subst r.
  apply Qmult_le_0_compat; [|apply Qlt_le_weak, pow2_pos].
  rewrite <- (Qfloor_Z 0) at 1. change (inject_Z 0 <= inject_Z (round_half_even (Qabs q * pow2 (- u)))).
  rewrite <- Zle_Qle. exact Hm.
Qed.

Lemma inv_bounds (speed : Q) :
  1 # 2 <= speed -> speed < 1 -> 1 < 1 / speed /\ 1 / speed <= 2.
Proof.
  intros H1 H2.
  assert (H0 : 0 < speed) by (apply Qlt_le_trans with (1 # 2); [reflexivity | exact H1]).
  split.
  - apply Qlt_shift_div_l; [exact H0|]. rewrite Qmult_1_l. exact H2.
  - apply Qle_shift_div_r; [exact H0|].
    setoid_replace 1 with (2 * (1 # 2)) at 1 by reflexivity.
    apply Qmult_le_l; [reflexivity | exact H1].
Qed.

(** For [0.5 <= speed < 1.0] the float [1.0 / speed] is finite and lies in
    [[1, 2]]. *)
Lemma round_inv_in_range (speed : Q) :
  1 # 2 <= speed -> speed < 1 ->
  exists inv, round_binary64 (1 / speed) = Some inv /\ 1 <= inv /\ inv <= 2.
Proof.
  intros H1 H2. destruct (inv_bounds speed H1 H2) as [Hlo Hhi].
  destruct (Qlt_le_dec (1 / speed) 2) as [Hlt|Hge].
  - destruct (round_binary64_range (1 / speed) 0) as [Hr Hm];
      [apply Qlt_le_weak; exact Hlo | exact Hlt | lia |].
    set (m := round_half_even _) in *.
    eexists; split; [exact Hr|]. split.
    + change 1 with (pow2 0). replace 0%Z with (52 + (0 - 52))%Z at 1 by lia.
      rewrite pow2_plus. apply Qmult_le_compat_r; [|apply Qlt_le_weak, pow2_pos].
      rewrite pow2_nat by lia. rewrite <- Zle_Qle. lia.
    + change 2 with (pow2 1). replace 1%Z with (53 + (0 - 52))%Z at 1 by lia.
      rewrite pow2_plus. apply Qmult_le_compat_r; [|apply Qlt_le_weak, pow2_pos].
      rewrite pow2_nat by lia. rewrite <- Zle_Qle. lia.
  - assert (Hq : 1 / speed == 2) by (apply Qle_antisym; assumption).
    destruct (round_binary64_range (1 / speed) 1) as [Hr _];
      [rewrite Hq; apply Qle_refl | rewrite Hq; reflexivity | lia |].
    rewrite (round_half_even_comp _ (inject_Z (2 ^ 52))) in Hr
      by (rewrite Hq; reflexivity).
    rewrite round_half_even_Z in Hr.
    eexists; split; [exact Hr|]. split; vm_compute; discriminate.
Qed.

(** A float [speed] with [0.5 < speed < 1.0] is at least [0.5 + 2^-53], so
    [1.0 / speed] rounds to a float below 2 and [int(1.0 / speed)] is 1. *)
Lemma inv_double_near_one (speed : Q) :
  is_double speed = true -> 1 # 2 < speed -> speed < 1 ->
  exists inv, round_binary64 (1 / speed) = Some inv /\ Qfloor inv = 1%Z.
Proof.
  intros Hd H1 H2.
  assert (H0 : 0 < speed) by (apply Qlt_trans with (1 # 2); [reflexivity | exact H1]).
  unfold is_double in Hd.
  destruct (round_binary64_range speed (-1)) as [Hr Hm];
    [apply Qlt_le_weak; exact H1 | exact H2 | lia |].
  rewrite Hr in Hd. apply Qeq_bool_iff in Hd.
  set (m := round_half_even _) in *.
  change (pow2 (-1 - 52)) with (1 # 9007199254740992) in Hd.
  assert (Hm1 : (2 ^ 52 < m)%Z).
  { rewrite <- Hd in H1. unfold Qlt in H1. simpl in H1. lia. }
  destruct (round_binary64_range (1 / speed) 0) as [Hr' Hm'].
  { change (pow2 0) with 1. apply Qlt_le_weak, Qlt_shift_div_l; [exact H0|].
    rewrite Qmult_1_l. exact H2. }
  { change (pow2 (0 + 1)) with 2. apply Qlt_shift_div_r; [exact H0|].
    rewrite <- Hd. unfold Qlt. cbn -[Z.mul Pos.mul]. lia. }
  { lia. }
  set (m' := round_half_even (1 / speed * pow2 (52 - 0))) in *.
  assert (Hm2 : (m' <= 2 ^ 53 - 1)%Z).
  { apply round_half_even_le.
    assert (E : 1 / speed * pow2 (52 - 0) == pow2 52 / speed)
      by (unfold Qdiv; change (52 - 0)%Z with 52%Z; ring).
    apply (proj2 (Qle_comp _ _ E _ _ (Qeq_refl _))). apply Qle_shift_div_r; [exact H0|].
    rewrite <- Hd. change (pow2 52) with (4503599627370496 # 1).
    unfold Qle. cbn -[Z.mul Pos.mul]. lia. }
  exists (inject_Z m' * pow2 (0 - 52)). split; [exact Hr'|].
  change (pow2 (0 - 52)) with (1 # 4503599627370496).
  apply Qfloor_unique; unfold Qle, Qlt; cbn -[Z.mul Pos.mul]; lia.
Qed.

(** The fallback for [speed > 1.0]. *)
Lemma adjust_speed_fast (env : TTSEnv) (audio : list Q) (speed : Q) :
  librosa_time_stretch env = None -> 1 < speed ->
  _adjust_speed env audio speed = Ok (spec_keep_every audio (Qfloor speed)).
Proof.
  intros Hl Hs. unfold _adjust_speed.
  rewrite (Qeq_bool_false_of_lt _ _ Hs), Hl.
  assert (Hlt : Qltb 1 speed = true).
  { unfold Qltb. destruct (Qle_bool speed 1) eqn:E; [|reflexivity].
    apply Qle_bool_iff in E. exfalso. exact (Qlt_not_le _ _ Hs E). }
  rewrite Hlt.
  assert (Hpos : (0 <= Qnum speed)%Z).
  { apply Z.lt_le_incl, Qnum_pos. apply Qlt_trans with 1; [reflexivity | exact Hs]. }
  assert (Hfl : (1 <= Qfloor speed)%Z).
  { change 1%Z with (Qfloor 1). apply Qfloor_resp_le. apply Qlt_le_weak. exact Hs. }
  cbv zeta. rewrite (py_int_Qfloor _ Hpos).
  destruct (Qfloor speed) as [|p|p] eqn:Ef; try lia.
  unfold np_slice_step. f_equal.
  rewrite take_every_spec by lia. rewrite positive_nat_Z. reflexivity.
Qed.

(** The fallback for [0 < speed < 1.0]: the branch taken, with the float
    quotient [1.0 / speed] still to be converted by [int]. *)
Lemma adjust_speed_slow_unfold (env : TTSEnv) (audio : list Q) (speed : Q) :
  librosa_time_stretch env = None -> 0 < speed -> speed < 1 ->
  _adjust_speed env audio speed =
    match py_int_float (round_binary64 (1 / speed)) with
    | Raise e => Raise e
    | Ok rep => np_repeat audio rep
    end.
Proof.
  intros Hl H0 H1. unfold _adjust_speed.
  rewrite (Qeq_bool_false_of_gt _ _ H1), Hl.
  assert (Hlt : Qltb 1 speed = false).
  { unfold Qltb. apply Qlt_le_weak, Qle_bool_iff in H1. rewrite H1. reflexivity. }
  rewrite Hlt. unfold float_div. rewrite (Qeq_bool_false_of_lt _ _ H0). reflexivity.
Qed.

Lemma adjust_speed_slow (env : TTSEnv) (audio : list Q) (speed inv : Q) :
  librosa_time_stretch env = None -> 0 < speed -> speed < 1 ->
  round_binary64 (1 / speed) = Some inv -> (Qfloor inv <= int64_max)%Z ->
  _adjust_speed env audio speed = Ok (spec_repeat_each audio (Qfloor inv)).
Proof.
  intros Hl H0 H1 Hinv Hmax. rewrite (adjust_speed_slow_unfold _ _ _ Hl H0 H1), Hinv.
  assert (Hpos : 0 < 1 / speed).
  { apply Qlt_shift_div_l; [exact H0|]. rewrite Qmult_0_l. reflexivity. }
  pose proof (round_binary64_nonneg _ _ Hpos Hinv) as Hnn.
  assert (Hn : (0 <= Qnum inv)%Z).
  { destruct inv as [n d]. unfold Qle in Hnn. simpl in Hnn. simpl. lia. }
  cbn [py_int_float]. rewrite (py_int_Qfloor _ Hn).
  pose proof (Qfloor_nonneg _ Hn) as Hf.
  unfold np_repeat. destruct (Qfloor inv <? 0)%Z eqn:E; [lia|].
  destruct (int64_max <? Qfloor inv)%Z eqn:E2; [apply Z.ltb_lt in E2; lia|].
  f_equal. unfold spec_repeat_each. apply flat_map_concat_map.
Qed.


(** On the range [SynthesisRequest] admits, [0.5 <= speed < 1.0], the
    count [int(1.0 / speed)] is 1 or 2 and the fallback succeeds. *)
Lemma adjust_speed_slow_range (env : TTSEnv) (audio : list Q) (speed : Q) :
  librosa_time_stretch env = None -> 1 # 2 <= speed -> speed < 1 ->
  exists inv, round_binary64 (1 / speed) = Some inv /\
    (Qfloor inv = 1 \/ Qfloor inv = 2)%Z /\
    _adjust_speed env audio speed = Ok (spec_repeat_each audio (Qfloor inv)).
Proof.
  intros Hl H1 H2.
  assert (H0 : 0 < speed) by (apply Qlt_le_trans with (1 # 2); [reflexivity | exact H1]).
  destruct (round_inv_in_range speed H1 H2) as (inv & Hinv & Hlo & Hhi).
  assert (Hf : (Qfloor inv = 1 \/ Qfloor inv = 2)%Z).
  { assert (1 <= Qfloor inv)%Z by (rewrite <- (Qfloor_Z 1); apply Qfloor_resp_le; exact Hlo).
    assert (Qfloor inv <= 2)%Z by (rewrite <- (Qfloor_Z 2); apply Qfloor_resp_le; exact Hhi).
    lia. }
  exists inv. split; [exact Hinv|]. split; [exact Hf|].
  apply (adjust_speed_slow _ _ _ _ Hl H0 H2 Hinv). unfold int64_max. lia.
Qed.


Lemma take_every_one {A} (l : list A) : take_every 1 l = l.
Proof.
  unfold take_every. induction l as [|x t IH]; simpl; [reflexivity | rewrite IH; reflexivity].
Qed.

Lemma spec_keep_every_take (audio : list Q) (k : Z) :
  (1 <= k)%Z -> spec_keep_every audio k = take_every (Z.to_nat k) audio.
Proof.
  intros Hk. rewrite take_every_spec by lia. rewrite Z2Nat.id by lia. reflexivity.
Qed.

Lemma spec_repeat_each_one (audio : list Q) : spec_repeat_each audio 1 = audio.
Proof.
  unfold spec_repeat_each. induction audio as [|x t IH]; [reflexivity|].
  cbn [map List.concat]. rewrite IH. reflexivity.
Qed.


(** Without librosa, every float speed strictly between 0.5 and 2.0
    leaves the audio unchanged: [int(speed)] and [int(1.0 / speed)] are
    both 1 there. *)
Lemma adjust_speed_noop_range (env : TTSEnv) (audio : list Q) (speed : Q) :
  librosa_time_stretch env = None -> is_double speed = true ->
  1 # 2 < speed -> speed < 2 ->
  _adjust_speed env audio speed = Ok audio.
Proof.
  intros Hl Hd Hlo Hhi.
  destruct (Qlt_le_dec 1 speed) as [Hgt|Hle].
  - rewrite (adjust_speed_fast _ _ _ Hl Hgt).
    assert (Hf : Qfloor speed = 1%Z).
    { apply Qfloor_unique; [apply Qlt_le_weak; exact Hgt | exact Hhi]. }
    rewrite Hf, spec_keep_every_take by lia. apply (f_equal Ok), take_every_one.
  - destruct (Qeq_dec speed 1) as [Heq|Hne].
    + unfold _adjust_speed. replace (Qeq_bool speed 1) with true; [reflexivity|].
      symmetry. apply Qeq_bool_iff. exact Heq.
    + assert (H1 : speed < 1).
      { destruct (Qle_lt_or_eq _ _ Hle) as [H|H]; [exact H | exfalso; apply Hne; exact H]. }
      assert (H0 : 0 < speed) by (apply Qlt_trans with (1 # 2); [reflexivity | exact Hlo]).
      destruct (inv_double_near_one speed Hd Hlo H1) as (inv & Hinv & Hf).
      rewrite (adjust_speed_slow _ _ _ _ Hl H0 H1 Hinv) by (rewrite Hf; unfold int64_max; lia).
      rewrite Hf. apply (f_equal Ok), spec_repeat_each_one.
Qed.

(** Without librosa, every speed [SynthesisRequest] admits above 0.5 gives
    an adjusted waveform. *)
Lemma adjust_speed_in_range (env : TTSEnv) (audio : list Q) (speed : Q) :
  librosa_time_stretch env = None -> 1 # 2 <= speed ->
  exists out, _adjust_speed env audio speed = Ok out.
Proof.
  intros Hl Hs.
  destruct (Qlt_le_dec 1 speed) as [Hgt|Hle].
  - eexists. exact (adjust_speed_fast _ _ _ Hl Hgt).
  - destruct (Qeq_dec speed 1) as [Heq|Hne].
    + exists audio. unfold _adjust_speed.
      replace (Qeq_bool speed 1) with true; [reflexivity|].
      symmetry. apply Qeq_bool_iff. exact Heq.
    + assert (H1 : speed < 1).
      { destruct (Qle_lt_or_eq _ _ Hle) as [H|H]; [exact H | exfalso; apply Hne; exact H]. }
      destruct (adjust_speed_slow_range env audio speed Hl Hs H1) as (inv & _ & _ & H).
      eexists. exact H.
Qed.



Close Scope Q_scope.

(** ** Synthesis *)

Lemma wav_bytes_nonempty (audio : list Q) (sample_rate : Z) :
  _audio_to_wav_bytes audio sample_rate <> [].
Proof. unfold _audio_to_wav_bytes, wav_header. simpl. discriminate. Qed.

Lemma synthesize_ready_unfold (env : TTSEnv) text voice speed pitch (w : World) :
  _initialized (svc w) = true -> kokoro_pipeline (svc w) <> None ->
  synthesize_speech env text voice speed pitch w =
  try_except
    ( audio_data <- _synthesize_sync env text voice ;;
      audio_data' <- (if negb (Qeq_bool speed 1)
                      then lift (_adjust_speed env audio_data speed)
                      else ret audio_data) ;;
      ret (_audio_to_wav_bytes audio_data' 24000) )
    (fun _ => raise (RuntimeError "Speech synthesis failed")) w.
Proof.
  intros Hi Hk. unfold synthesize_speech at 1, bind at 1, get_svc.
  rewrite Hi. destruct (kokoro_pipeline (svc w)); [reflexivity | contradiction].
Qed.

Lemma synthesize_sync_no_segments (env : TTSEnv) text voice (w : World) :
  tts_segments env = Some [] ->
  _synthesize_sync env text voice w =
    (mkWorld (svc w) (files w) (log w ++ [RunSynthesize text voice]), Ok silence).
Proof. intros H. unfold _synthesize_sync, bind, emit. rewrite H. reflexivity. Qed.

(** C3 (as the code does it): with no segment from Kokoro the waveform is
    24000 zero samples; it is then speed-adjusted like any waveform.  The
    output is exactly one second of silence encoded when [speed = 1.0], and
    also, without librosa, for every float speed strictly between 0.5 and
    2.0 ([int(speed)] and [int(1.0 / speed)] are 1 there); otherwise it is
    the encoding of the adjusted silence.  Without librosa every speed in
    [[0.5, 2.0]] yields bytes, and bytes returned are never empty. *)
Theorem synthesize_zero_segments (env : TTSEnv) text voice (speed pitch : Q)
    (w w' : World) (r : outcome (list Z)) :
  _initialized (svc w) = true -> kokoro_pipeline (svc w) <> None ->
  tts_segments env = Some [] ->
  synthesize_speech env text voice speed pitch w = (w', r) ->
  (Qeq_bool speed 1 = true -> r = Ok (_audio_to_wav_bytes silence 24000)) /\
  (Qeq_bool speed 1 = false ->
   r = match _adjust_speed env silence speed with
       | Ok a => Ok (_audio_to_wav_bytes a 24000)
       | Raise _ => Raise (RuntimeError "Speech synthesis failed")
       end) /\
  (librosa_time_stretch env = None -> is_double speed = true ->
   (1 # 2 < speed)%Q -> (speed < 2)%Q -> r = Ok (_audio_to_wav_bytes silence 24000)) /\
  (librosa_time_stretch env = None -> (1 # 2 <= speed)%Q -> exists b, r = Ok b) /\
  (forall b, r = Ok b -> b <> []).
Proof.
  intros Hi Hk Hs Hrun.
  rewrite synthesize_ready_unfold in Hrun by assumption.
  unfold try_except, bind at 1 in Hrun.
  rewrite synthesize_sync_no_segments in Hrun by exact Hs.
  assert (Hr : r = if Qeq_bool speed 1 then Ok (_audio_to_wav_bytes silence 24000)
                   else match _adjust_speed env silence speed with
                        | Ok a => Ok (_audio_to_wav_bytes a 24000)
                        | Raise _ => Raise (RuntimeError "Speech synthesis failed")
                        end).
  { destruct (Qeq_bool speed 1); simpl in Hrun.
    - inversion Hrun; reflexivity.
    - destruct (_adjust_speed env silence speed); simpl in Hrun; inversion Hrun; reflexivity. }
  clear Hrun. split; [|split; [|split; [|split]]].
  - intros E. rewrite E in Hr. exact Hr.
  - intros E. rewrite E in Hr. exact Hr.
  - intros Hl Hd Hlo Hhi. destruct (Qeq_bool speed 1); [exact Hr|].
    rewrite (adjust_speed_noop_range env silence speed Hl Hd Hlo Hhi) in Hr. exact Hr.
  - intros Hl Hlo. destruct (Qeq_bool speed 1); [eexists; exact Hr|].
    destruct (adjust_speed_in_range env silence speed Hl Hlo) as [out Hout].
    rewrite Hout in Hr. eexists; exact Hr.
  - intros b Hb. subst r. destruct (Qeq_bool speed 1).
    + inversion Hb. apply wav_bytes_nonempty.
    + destruct (_adjust_speed env silence speed); inversion Hb. apply wav_bytes_nonempty.
Qed.

(** C3 fails as stated: with no segment, no librosa and [speed = 2.0] the
    output has 24044 bytes (header and 12000 samples, half a second) while
    one second of silence encodes to 48044 bytes. *)
Lemma synthesize_zero_segments_speed_two :
  output_size (snd (synthesize_speech env_tts_empty "Hello world" "af_heart" 2%Q 1%Q w_ready))
    = 24044%N /\
  output_size (Ok (_audio_to_wav_bytes silence 24000)) = 48044%N /\
  snd (synthesize_speech env_tts_empty "Hello world" "af_heart" 2%Q 1%Q w_ready) <>
    Ok (_audio_to_wav_bytes silence 24000).
Proof.
  assert (E : output_size (snd (synthesize_speech env_tts_empty "Hello world" "af_heart"
                                  2%Q 1%Q w_ready)) = 24044%N)
    by (vm_compute; reflexivity).
  split; [exact E|]. split; [vm_compute; reflexivity|].
  intros H. rewrite H in E. vm_compute in E. discriminate.
Qed.

(** C6: with [speed = 1.0] the speed step is the identity and the encoded
    bytes are those of the waveform produced by the engine. *)
Theorem synthesize_speed_one_identity (env : TTSEnv) text voice (speed pitch : Q)
    (w w1 : World) (audio : list Q) :
  Qeq_bool speed 1 = true ->
  _initialized (svc w) = true -> kokoro_pipeline (svc w) <> None ->
  _synthesize_sync env text voice w = (w1, Ok audio) ->
  synthesize_speech env text voice speed pitch w = (w1, Ok (_audio_to_wav_bytes audio 24000)) /\
  _adjust_speed env audio speed = Ok audio.
Proof.
  intros Hs Hi Hk Hsync.
  rewrite synthesize_ready_unfold by assumption.
  unfold try_except, bind at 1. rewrite Hsync. rewrite Hs. simpl.
  split; [reflexivity|]. unfold _adjust_speed. rewrite Hs. reflexivity.
Qed.

(** ** Witnesses *)

Lemma partial_init_failure_unusable_witness :
  transcribe_audio env_transcribe_ok [82; 73; 70; 70]%Z "auto" w_partial =
    (w_partial, Raise (RuntimeError "Whisper model not initialized")) /\
  synthesize_speech env_tts_hello "Hi" "af_heart" 1%Q 1%Q w_partial =
    (w_partial, Raise (RuntimeError "Kokoro pipeline not initialized")) /\
  serve [ReqTranscribe env_write_fails [82; 73; 70; 70]%Z "auto";
         ReqSynthesize env_tts_hello "Hi" "af_heart" 1%Q 1%Q] w_partial =
  (w_partial, [RespTranscribe (Raise (RuntimeError "Whisper model not initialized"));
               RespSynthesize (Raise (RuntimeError "Kokoro pipeline not initialized"))]).
Proof.
  destruct (partial_init_failure_unusable
              env_kokoro_fails w_fresh w_partial 1%nat (Raise EngineError))
    as (_ & _ & _ & Ht & Hs & Hserve);
    [reflexivity | reflexivity | reflexivity | reflexivity |].
  split; [apply Ht|]. split; [apply Hs|]. apply Hserve.
Defined.

Lemma initialize_idempotent_witness :
  initialize env_loads_ok w_inited = (w_inited, Ok tt) /\
  initialize env_kokoro_fails w_ready = (w_ready, Ok tt).
Proof.
  split.
  - refine (proj1 (proj2 (initialize_idempotent env_loads_ok env_loads_ok w_fresh w_inited) _)).
    reflexivity.
  - refine (proj1 (initialize_idempotent env_kokoro_fails env_kokoro_fails w_ready w_ready) _).
    reflexivity.
Defined.

Lemma calls_before_init_raise_witness :
  transcribe_audio env_write_fails [82; 73; 70; 70]%Z "auto" w_fresh =
    (w_fresh, Raise (RuntimeError "Whisper model not initialized")) /\
  synthesize_speech env_tts_hello "Hi" "af_heart" 1%Q 1%Q w_fresh =
    (w_fresh, Raise (RuntimeError "Kokoro pipeline not initialized")).
Proof.
  split.
  - refine (proj1 (calls_before_init_raise w_fresh) _ _ _ _). left; reflexivity.
  - refine (proj2 (calls_before_init_raise w_fresh) _ _ _ _ _ _). left; reflexivity.
Defined.

Lemma calculate_confidence_spec_witness :
  _calculate_confidence result_two_segments = spec_clamp (exp (spec_mean [(-1)%R; (-3)%R])) 0 1 /\
  _calculate_confidence stt_result_plain = 0.8%R.
Proof.
  split.
  - refine (proj2 (proj2 (calculate_confidence_spec result_two_segments))
              [mkSegment (Some (-1)%R); mkSegment (Some (-3)%R)] [(-1)%R; (-3)%R] _ _ _);
    [reflexivity | discriminate | reflexivity].
  - refine (proj1 (proj2 (calculate_confidence_spec stt_result_plain)) _).
    left; reflexivity.
Defined.

Lemma missing_logprob_counts_as_zero_witness :
  _calculate_confidence result_no_logprob = 1%R.
Proof.
  refine (proj2 (missing_logprob_counts_as_zero result_no_logprob)
            [mkSegment None; mkSegment None] _ _ _);
  [reflexivity | discriminate | repeat constructor].
Defined.


Lemma synthesize_zero_segments_witness :
  Raise (RuntimeError "Speech synthesis failed") =
  match _adjust_speed env_tts_empty_stretch_fails silence 2%Q with
  | Ok a => Ok (_audio_to_wav_bytes a 24000)
  | Raise _ => Raise (RuntimeError "Speech synthesis failed")
  end.
Proof.
  refine (proj1 (proj2 (synthesize_zero_segments env_tts_empty_stretch_fails
            "Hello world" "af_heart" 2%Q 1%Q w_ready
            (mkWorld (svc w_ready) [] [RunSynthesize "Hello world" "af_heart"])
            (Raise (RuntimeError "Speech synthesis failed")) _ _ _ _)) _).
  - reflexivity.
  - discriminate.
  - reflexivity.
  - vm_compute. reflexivity.
  - vm_compute. reflexivity.
Defined.

Lemma synthesize_speed_one_identity_witness :
  synthesize_speech env_tts_hello "Hi" "af_heart" 1%Q 1%Q w_ready =
  (mkWorld (svc w_ready) [] [RunSynthesize "Hi" "af_heart"],
   Ok (_audio_to_wav_bytes [1 # 2; 0; -1 # 4]%Q 24000)).
Proof.
  refine (proj1 (synthesize_speed_one_identity env_tts_hello "Hi" "af_heart" 1%Q 1%Q w_ready
            (mkWorld (svc w_ready) [] [RunSynthesize "Hi" "af_heart"])
            [1 # 2; 0; -1 # 4]%Q _ _ _ _)).
  - reflexivity.
  - reflexivity.
  - discriminate.
  - reflexivity.
Defined.

(** ** Further properties of the service *)

Create HintDb preserves.

Lemma preserves_ret {A B} (proj : World -> B) (a : A) : preserves proj (ret a).
Proof. intros w; reflexivity. Qed.

Lemma preserves_raise {A B} (proj : World -> B) (e : exc) : preserves proj (@raise A e).
Proof. intros w; reflexivity. Qed.

Lemma preserves_bind {A C B} (proj : World -> B) (m : PyM A) (k : A -> PyM C) :
  preserves proj m -> (forall a, preserves proj (k a)) -> preserves proj (bind m k).
Proof.
  intros Hm Hk w. unfold bind. specialize (Hm w).
  destruct (m w) as [w1 [a|e]]; simpl in *; [rewrite Hk|]; exact Hm.
Qed.

Lemma preserves_try_except {A B} (proj : World -> B) (m : PyM A) (h : exc -> PyM A) :
  preserves proj m -> (forall e, preserves proj (h e)) -> preserves proj (try_except m h).
Proof.
  intros Hm Hh w. unfold try_except. specialize (Hm w).
  destruct (m w) as [w1 [a|e]]; simpl in *; [|rewrite Hh]; exact Hm.
Qed.

Lemma preserves_lift {A B} (proj : World -> B) (o : outcome A) : preserves proj (lift o).
Proof. destruct o; intros w; reflexivity. Qed.

Lemma preserves_get_svc {B} (proj : World -> B) : preserves proj get_svc.
Proof. intros w; reflexivity. Qed.

Lemma svc_emit (ev : event) : preserves svc (emit ev).
Proof. intros w; reflexivity. Qed.

Lemma files_emit (ev : event) : preserves files (emit ev).
Proof. intros w; reflexivity. Qed.

Lemma svc_named_temporary_file (env : STTEnv) : preserves svc (named_temporary_file env).
Proof. intros w. unfold named_temporary_file. destruct (create_ok env); reflexivity. Qed.

Lemma svc_temp_file_write (env : STTEnv) a : preserves svc (temp_file_write env a).
Proof. intros w. unfold temp_file_write. destruct (write_ok env); reflexivity. Qed.

Lemma svc_remove_temp_file (env : STTEnv) (p : string) : preserves svc (remove_temp_file env p).
Proof.
  intros w. unfold remove_temp_file, os_path_exists, os_unlink, bind, ret, raise.
  destruct (in_dec string_dec p (files w)); [|reflexivity].
  destruct (unlink_ok env); reflexivity.
Qed.

Lemma svc_try_finally {A} (m : PyM A) (fin : PyM unit) :
  preserves svc m -> preserves svc fin -> preserves svc (try_finally m fin).
Proof.
  intros Hm Hf w. unfold try_finally. specialize (Hm w).
  destruct (m w) as [w1 r]. specialize (Hf w1).
  destruct (fin w1) as [w2 [u|e]]; simpl in *; congruence.
Qed.

#[local] Hint Resolve preserves_ret preserves_raise preserves_bind preserves_try_except
  preserves_lift preserves_get_svc svc_emit files_emit svc_named_temporary_file
  svc_temp_file_write svc_remove_temp_file svc_try_finally : preserves.

Ltac solve_preserves :=
  repeat first
    [ progress eauto with preserves
    | apply preserves_bind; [solve_preserves|intros ?]
    | apply preserves_try_except; [solve_preserves|intros ?]
    | apply svc_try_finally
    | match goal with
      | |- preserves _ (if ?b then _ else _) => destruct b
      | |- preserves _ (match ?x with _ => _ end) => destruct x
      end ].

Lemma svc_transcribe_sync (env : STTEnv) p l : preserves svc (_transcribe_sync env p l).
Proof. unfold _transcribe_sync. solve_preserves. Qed.

Lemma svc_synthesize_sync (env : TTSEnv) t v : preserves svc (_synthesize_sync env t v).
Proof. unfold _synthesize_sync. solve_preserves. Qed.

Lemma files_synthesize_sync (env : TTSEnv) t v : preserves files (_synthesize_sync env t v).
Proof. unfold _synthesize_sync. solve_preserves. Qed.

#[local] Hint Resolve svc_transcribe_sync svc_synthesize_sync files_synthesize_sync : preserves.

Lemma handle_request_svc (rq : request) (w : World) :
  svc (fst (handle_request rq w)) = svc w.
Proof.
  assert (Ht : forall env a l, preserves svc (transcribe_audio env a l)).
  { intros. unfold transcribe_audio. solve_preserves. }
  assert (Hs : forall env t v sp p, preserves svc (synthesize_speech env t v sp p)).
  { intros. unfold synthesize_speech. solve_preserves. }
  destruct rq as [env a l | env t v sp p]; simpl.
  - specialize (Ht env a l w). destruct (transcribe_audio env a l w). exact Ht.
  - specialize (Hs env t v sp p w). destruct (synthesize_speech env t v sp p w). exact Hs.
Qed.

(** Requests never modify the service object: the shared model handles and
    the [_initialized] flag are the same after any transcription or
    synthesis call, whatever it returns. *)
Theorem requests_preserve_service (rq : request) (w : World) :
  svc (fst (handle_request rq w)) = svc w.
Proof. apply handle_request_svc. Qed.

(** Synthesis never touches the file system; a transcription whose staging
    file was created under a fresh name, written and successfully unlinked
    leaves exactly the files that were there before. *)
Theorem requests_leave_files (w : World) :
  (forall env text voice speed pitch,
     files (fst (synthesize_speech env text voice speed pitch w)) = files w) /\
  (forall env audio_data language,
     write_ok env = true -> unlink_ok env = true -> ~ In (temp_name env) (files w) ->
     files (fst (transcribe_audio env audio_data language w)) = files w).
Proof.
  split.
  - intros. revert w. change (preserves files (synthesize_speech env text voice speed pitch)).
    unfold synthesize_speech. solve_preserves.
  - intros env a l Hwr Hu Hfresh.
    unfold transcribe_audio, bind at 1, get_svc.
    destruct (negb (_initialized (svc w)) || is_none (whisper_model (svc w))); [reflexivity|].
    unfold try_except, bind at 1, named_temporary_file.
    destruct (create_ok env); [|reflexivity].
    unfold bind at 1, temp_file_write. rewrite Hwr. unfold ret at 1.
    set (w0 := {| svc := svc w; files := temp_name env :: files w; log := log w |}).
    set (body := bind (_transcribe_sync env (temp_name env) l) _).
    assert (Hb : preserves files body).
    { unfold body, _transcribe_sync. solve_preserves. }
    unfold try_finally. specialize (Hb w0).
    destruct (body w0) as [w1 r] eqn:E1. simpl in Hb.
    assert (Hfin : files (fst (remove_temp_file env (temp_name env) w1)) = files w).
    { unfold remove_temp_file, os_path_exists, os_unlink, bind, ret.
      rewrite Hu, Hb. simpl. destruct (string_dec (temp_name env) (temp_name env)); [|congruence].
      simpl. rewrite Hb. simpl. destruct (string_dec (temp_name env) (temp_name env)); [|congruence].
      apply notin_remove. exact Hfresh. }
    pose proof (remove_temp_file_spec env (temp_name env) w1 Hu) as [Hok _].
    destruct (remove_temp_file env (temp_name env) w1) as [w2 [u|e]];
    simpl in Hfin, Hok; [destruct r|discriminate]; simpl; exact Hfin.
Qed.

(** Every failure of [transcribe_audio] reaches the caller as one of two
    RuntimeErrors: "not initialized" before any work, "Transcription failed"
    for any failure in staging, inference or result handling. *)
Theorem transcribe_error_kinds (env : STTEnv) a l (w w' : World) (e : exc) :
  transcribe_audio env a l w = (w', Raise e) ->
  e = RuntimeError "Whisper model not initialized" \/
  e = RuntimeError "Transcription failed".
Proof.
  unfold transcribe_audio, bind at 1, get_svc.
  destruct (negb (_initialized (svc w)) || is_none (whisper_model (svc w))).
  - intros H; inversion H; left; reflexivity.
  - unfold try_except.
    match goal with
    | |- (match ?t with _ => _ end) = _ -> _ => destruct t as [w1 [r|e1]]
    end; intros H; inversion H; right; reflexivity.
Qed.

(** The exceptions [synthesize_speech] raises. *)
Lemma synthesize_speech_raise (env : TTSEnv) t v sp p (w w' : World) (e : exc) :
  synthesize_speech env t v sp p w = (w', Raise e) ->
  e = RuntimeError "Kokoro pipeline not initialized" \/
  e = RuntimeError "Speech synthesis failed".
Proof.
  unfold synthesize_speech, bind at 1, get_svc.
  destruct (negb (_initialized (svc w)) || is_none (kokoro_pipeline (svc w))).
  - intros H; inversion H; left; reflexivity.
  - unfold try_except.
    match goal with
    | |- (match ?t with _ => _ end) = _ -> _ => destruct t as [w1 [r|e1]]
    end; intros H; inversion H; right; reflexivity.
Qed.

(** Every failure of [synthesize_speech] reaches the caller as one of two
    RuntimeErrors: "not initialized" before any work, "Speech synthesis
    failed" for any failure in inference, speed adjustment or encoding. *)
Theorem synthesize_error_kinds (env : TTSEnv) t v sp p (w w' : World) (e : exc) :
  synthesize_speech env t v sp p w = (w', Raise e) ->
  e = RuntimeError "Kokoro pipeline not initialized" \/
  e = RuntimeError "Speech synthesis failed".
Proof. apply synthesize_speech_raise. Qed.

(** The result of a successful [transcribe_audio]. *)
Lemma transcribe_audio_ok (env : STTEnv) a language (w w' : World)
    (tr : TranscriptionResult) :
  transcribe_audio env a language w = (w', Ok tr) ->
  exists res txt,
    stt_result env = Some res /\ wr_text res = Some txt /\
    tr = {| tr_text := strip txt;
            tr_language := dict_get (wr_language res) "unknown";
            tr_confidence := _calculate_confidence res;
            tr_duration := dict_get (wr_duration res) 0%R |} /\
    log w' = (log w ++ [RunTranscribe (temp_name env)
                          (if String.eqb language "auto" then None else Some language)])%list.
Proof.
  unfold transcribe_audio, bind at 1, get_svc.
  destruct (negb (_initialized (svc w)) || is_none (whisper_model (svc w)));
    [intros H; inversion H|].
  unfold try_except, named_temporary_file, temp_file_write.
  destruct (create_ok env); [|intros H; inversion H].
  destruct (write_ok env); [|intros H; inversion H].
  unfold bind, ret, try_finally, _transcribe_sync, emit, raise; simpl.
  destruct (stt_result env) as [res|]; simpl.
  2:{ destruct (remove_temp_file _ _ _) as [w2 [u|e2]]; intros H; inversion H. }
  destruct (wr_text res) as [txt|] eqn:Etxt.
  2:{ destruct (remove_temp_file _ _ _) as [w2 [u|e2]]; intros H; inversion H. }
  match goal with
  | |- context [remove_temp_file env ?p ?w1] =>
      assert (Hlog : log (fst (remove_temp_file env p w1)) = log w1)
        by (unfold remove_temp_file, os_path_exists, os_unlink, bind, ret, raise;
            destruct (in_dec string_dec p (files w1)); [|reflexivity];
            destruct (unlink_ok env); reflexivity);
      destruct (remove_temp_file env p w1) as [w2 [u|e2]]
  end; intros H; inversion H; subst; clear H.
  exists res, txt. simpl in Hlog. repeat split; [assumption|].
  exact Hlog.
Qed.

(** A successful transcription ran the engine exactly once on the staging
    file, with no language option for ["auto"] and the given language
    otherwise; its text is the engine's text stripped, its language and
    duration default to ["unknown"] and [0.0], and its confidence is
    [_calculate_confidence] of the engine result. *)
Theorem transcribe_audio_success (env : STTEnv) a language (w w' : World)
    (tr : TranscriptionResult) :
  transcribe_audio env a language w = (w', Ok tr) ->
  exists res txt,
    stt_result env = Some res /\ wr_text res = Some txt /\
    tr = {| tr_text := strip txt;
            tr_language := dict_get (wr_language res) "unknown";
            tr_confidence := _calculate_confidence res;
            tr_duration := dict_get (wr_duration res) 0%R |} /\
    log w' = (log w ++ [RunTranscribe (temp_name env)
                          (if String.eqb language "auto" then None else Some language)])%list.
Proof. apply transcribe_audio_ok. Qed.

Lemma initialize_consistent (env : InitEnv) (w : World) :
  handles_consistent (svc w) -> handles_consistent (svc (fst (initialize env w))).
Proof.
  destruct w as [[wm km i] f l]. unfold handles_consistent; simpl. intros [Hk Hw].
  run_pym. destruct i; simpl; [tauto|].
  destruct (whisper_load env "turbo"); run_pym; [|tauto].
  destruct (kokoro_load env "a"); run_pym; simpl.
  - split; [split; [intros _; discriminate | reflexivity] | intros _; discriminate].
  - split; [exact Hk | intros H; discriminate].
Qed.

Lemma cleanup_consistent (c : bool) (w : World) :
  handles_consistent (svc (fst (cleanup c w))).
Proof.
  destruct w as [[wm km i] f l].
  destruct wm, km, c; run_pym; unfold handles_consistent; simpl;
  split; try split; intros H; try discriminate; exfalso; apply H; reflexivity.
Qed.

Lemma run_ops_consistent (os : list op) (w : World) :
  handles_consistent (svc w) -> handles_consistent (svc (run_ops os w)).
Proof.
  revert w. induction os as [|o rest IH]; intros w Hw; simpl; [exact Hw|].
  apply IH. destruct o as [env|c|rq]; simpl.
  - apply initialize_consistent. exact Hw.
  - apply cleanup_consistent.
  - rewrite handle_request_svc. exact Hw.
Qed.

Lemma consistent_health (s : SpeechService) :
  handles_consistent s ->
  (hs_whisper (health s) && hs_kokoro (health s) = hs_initialized (health s))%bool.
Proof.
  intros [Hk Hw]. unfold health; simpl.
  destruct (_initialized s) eqn:Ei.
  - destruct (whisper_model s) eqn:Ew; [|exfalso; apply Hw; reflexivity].
    destruct (kokoro_pipeline s) eqn:Ek; [reflexivity|].
    exfalso; apply (proj1 Hk); reflexivity.
  - destruct (kokoro_pipeline s) eqn:Ek; [|destruct (whisper_model s); reflexivity].
    assert (false = true) by (apply Hk; discriminate). discriminate.
Qed.

Lemma new_service_consistent : handles_consistent new_service.
Proof.
  unfold handles_consistent; simpl.
  split; [split; [discriminate | intros Hn; exfalso; apply Hn; reflexivity] | discriminate].
Qed.

(** In every state the application can reach from a fresh service (any
    sequence of [initialize], [cleanup] and requests, with any engine
    behaviour), [_initialized] holds exactly when the Kokoro pipeline is
    loaded, and then the Whisper model is loaded too; so the health report
    shows both handles present exactly when it shows the service initialized. *)
Theorem reachable_handles_consistent (os : list op) (f : list string) (l : list event) :
  let s := svc (run_ops os (mkWorld new_service f l)) in
  (_initialized s = true <-> kokoro_pipeline s <> None) /\
  (_initialized s = true -> whisper_model s <> None) /\
  (hs_whisper (health s) && hs_kokoro (health s) = hs_initialized (health s))%bool.
Proof.
  intros s. assert (Hc : handles_consistent s)
    by (apply run_ops_consistent; exact new_service_consistent).
  pose proof (consistent_health s Hc) as Hh.
  destruct Hc as [Hk Hw]. split; [exact Hk|]. split; [exact Hw | exact Hh].
Qed.

(** On an uninitialized service, [initialize] first loads Whisper
    ("turbo") and then the Kokoro pipeline ("a"): when both loaders succeed
    the service holds both new handles and is initialized; when the Whisper
    loader raises, the error is re-raised and the service is left exactly
    as it was, Kokoro never being attempted. *)
Theorem initialize_outcomes (env : InitEnv) (w : World) :
  _initialized (svc w) = false ->
  (forall h1 h2, whisper_load env "turbo" = Some h1 -> kokoro_load env "a" = Some h2 ->
     initialize env w =
       (mkWorld (mkService (Some h1) (Some h2) true) (files w)
                (log w ++ [LoadWhisper "turbo"; LoadKokoro "a"]), Ok tt)) /\
  (whisper_load env "turbo" = None ->
     initialize env w =
       (mkWorld (svc w) (files w) (log w ++ [LoadWhisper "turbo"]), Raise EngineError)).
Proof.
  destruct w as [[wm km i] f l]; simpl. intros Hi; subst i. split.
  - intros h1 h2 H1 H2. run_pym. rewrite H1. run_pym. rewrite H2. run_pym.
    rewrite <- app_assoc. reflexivity.
  - intros H1. run_pym. rewrite H1. run_pym. reflexivity.
Qed.

(** [cleanup] followed by [initialize] reloads both models: whatever the
    state before, with loaders that succeed the service ends initialized
    with the freshly loaded handles, after the optional CUDA cache flush
    and the two load events. *)
Theorem cleanup_then_initialize_reloads (c : bool) (env : InitEnv) (w : World) (h1 h2 : Handle) :
  whisper_load env "turbo" = Some h1 -> kokoro_load env "a" = Some h2 ->
  let (w2, r) := initialize env (fst (cleanup c w)) in
  r = Ok tt /\ svc w2 = mkService (Some h1) (Some h2) true /\ files w2 = files w /\
  log w2 = (log w ++ (if c then [EmptyCudaCache] else []) ++
            [LoadWhisper "turbo"; LoadKokoro "a"])%list.
Proof.
  intros H1 H2. destruct w as [[wm km i] f l].
  destruct wm, km, c; run_pym; rewrite H1; run_pym; rewrite H2; run_pym;
  repeat split; rewrite <- ?app_assoc; reflexivity.
Qed.
















(** Without librosa, every float speed strictly between 0.5 and 2.0
    leaves the audio unchanged: [int(speed)] and [int(1.0 / speed)] are both
    1 there, so within the range [SynthesisRequest] accepts only the end
    points 0.5 and 2.0 can change the audio. *)
Theorem adjust_speed_fallback_noop (env : TTSEnv) (audio : list Q) (speed : Q) :
  librosa_time_stretch env = None -> is_double speed = true ->
  (1 # 2 < speed)%Q -> (speed < 2)%Q ->
  _adjust_speed env audio speed = Ok audio.
Proof. apply adjust_speed_noop_range. Qed.

(** ** The HTTP endpoints *)

(** [GET /api/v1/health] in any reachable state: without a service object
    the 503 raised inside the [try] is caught and answered as a 500; with
    one, the status is "healthy" exactly when the service is initialized.
    The endpoint changes nothing. *)
Theorem health_check_reachable (os : list op) (f : list string) (l : list event) :
  let w := run_ops os (mkWorld new_service f l) in
  health_check false w = (w, Ok (HTTPError 500 "Health check failed")) /\
  health_check true w =
    (w, Ok (HealthJSON (if _initialized (svc w) then "healthy" else "degraded")
                       (health (svc w)) "1.0.0")).
Proof.
  intros w. split; [reflexivity|].
  assert (Hh := consistent_health (svc w)
                  (run_ops_consistent os (mkWorld new_service f l) new_service_consistent)).
  unfold health_check. cbv zeta. cbn [negb]. fold w in Hh. rewrite Hh. reflexivity.
Qed.

Lemma decimal_400 : decimal 400 = "400".
Proof. reflexivity. Qed.

(** An upload whose content type is missing or does not start with
    ["audio/"] is refused before anything is read or run; the 400 raised
    inside the [try] is caught and answered as a 500 whose detail embeds it. *)
Theorem transcribe_endpoint_bad_content_type (env : STTEnv) (content_type : option string)
    (audio_data : list Z) (language : string) (w : World) :
  (forall ct, content_type = Some ct -> startswith ct "audio/" = false) ->
  transcribe_endpoint true env content_type audio_data language w =
    (w, Ok (HTTPError 500 "Transcription failed: 400: Invalid audio file format")).
Proof.
  intros Hct. unfold transcribe_endpoint. cbn [negb].
  destruct content_type as [ct|]; [rewrite (Hct ct eq_refl)|]; reflexivity.
Qed.

Lemma transcribe_audio_confidence (env : STTEnv) a l (w w' : World) (tr : TranscriptionResult) :
  transcribe_audio env a l w = (w', Ok tr) -> (0 <= tr_confidence tr <= 1)%R.
Proof.
  intros H. destruct (transcribe_audio_ok env a l w w' tr H) as (res & txt & _ & _ & -> & _).
  simpl. apply calculate_confidence_range.
Qed.

(** The endpoint function of [POST /api/v1/speech/transcribe], called on
    the parsed form, always answers (it never lets an exception escape) and
    never answers 400 or 422 itself: either an error with status 500 or
    503, or a transcription whose confidence lies in [[0, 1]] and whose
    duration is non-negative, as [TranscriptionResponse] requires.
    FastAPI's own answers to forms it cannot parse are outside it. *)
Theorem transcribe_endpoint_answers (service_set : bool) (env : STTEnv)
    (content_type : option string) (audio_data : list Z) (language : string) (w : World) :
  exists resp, snd (transcribe_endpoint service_set env content_type audio_data language w) = Ok resp /\
    match resp with
    | HTTPError code _ => code = 500%Z \/ code = 503%Z
    | TranscriptionJSON _ _ conf dur => (0 <= conf <= 1)%R /\ (0 <= dur)%R
    | _ => False
    end.
Proof.
  unfold transcribe_endpoint.
  destruct service_set; cbn [negb]; [|eexists; split; [reflexivity | right; reflexivity]].
  cbv zeta.
  destruct content_type as [ct|]; [|eexists; split; [reflexivity | left; reflexivity]].
  destruct (startswith ct "audio/"); [|eexists; split; [reflexivity | left; reflexivity]].
  destruct (transcribe_audio env audio_data language w) as [w' [tr|e]] eqn:Et;
    [|eexists; split; [reflexivity | left; reflexivity]].
  pose proof (transcribe_audio_confidence _ _ _ _ _ _ Et) as [Hc0 Hc1].
  unfold transcription_response.
  destruct (Rle_dec 0 (tr_confidence tr)); [|contradiction].
  destruct (Rle_dec (tr_confidence tr) 1); [|contradiction].
  destruct (Rle_dec 0 (tr_duration tr));
    eexists; (split; [reflexivity|]); [split; [split|] | left; reflexivity]; assumption.
Qed.

(** An audio upload that the service transcribes comes back as the
    transcription's text, language, confidence and duration; the confidence
    check of [TranscriptionResponse] never fails, so the only result it
    rejects, as a 500, is one with a negative duration. *)
Theorem transcribe_endpoint_success (env : STTEnv) (ct : string) (audio_data : list Z)
    (language : string) (w w' : World) (tr : TranscriptionResult) :
  startswith ct "audio/" = true ->
  transcribe_audio env audio_data language w = (w', Ok tr) ->
  ((0 <= tr_duration tr)%R ->
   transcribe_endpoint true env (Some ct) audio_data language w =
     (w', Ok (TranscriptionJSON (tr_text tr) (tr_language tr) (tr_confidence tr) (tr_duration tr)))) /\
  ((tr_duration tr < 0)%R ->
   exists detail, transcribe_endpoint true env (Some ct) audio_data language w =
     (w', Ok (HTTPError 500 detail))).
Proof.
  intros Hct Ht. pose proof (transcribe_audio_confidence _ _ _ _ _ _ Ht) as [Hc0 Hc1].
  unfold transcribe_endpoint. cbn [negb]. cbv zeta. rewrite Hct, Ht.
  unfold transcription_response.
  destruct (Rle_dec 0 (tr_confidence tr)); [|contradiction].
  destruct (Rle_dec (tr_confidence tr) 1); [|contradiction].
  split; intros Hd; destruct (Rle_dec 0 (tr_duration tr)) as [H|H].
  - reflexivity.
  - contradiction.
  - exfalso. apply (Rlt_not_le _ _ Hd H).
  - eexists. reflexivity.
Qed.

Lemma validate_ok (text voice : string) (speed pitch : Q) :
  (1 <= String.length text <= 1000)%nat ->
  (1 # 2 <= speed <= 2)%Q -> (1 # 2 <= pitch <= 2)%Q ->
  validate_synthesis_request text voice speed pitch =
    Some (mkSynthesisRequest text voice speed pitch).
Proof.
  intros [Hl1 Hl2] [Hs1 Hs2] [Hp1 Hp2]. unfold validate_synthesis_request.
  apply Nat.leb_le in Hl1, Hl2. apply Qle_bool_iff in Hs1, Hs2, Hp1, Hp2.
  rewrite Hl1, Hl2, Hs1, Hs2, Hp1, Hp2. reflexivity.
Qed.

Lemma validate_too_long (text voice : string) (speed pitch : Q) :
  (1000 < String.length text)%nat -> validate_synthesis_request text voice speed pitch = None.
Proof.
  intros H. unfold validate_synthesis_request.
  replace (Nat.leb (String.length text) 1000) with false
    by (symmetry; apply Nat.leb_gt; exact H).
  rewrite !andb_false_r, andb_false_l. reflexivity.
Qed.

Lemma length_pos_neq_empty (text : string) :
  (1 <= String.length text)%nat -> String.eqb text "" = false.
Proof. destruct text; [simpl; lia | reflexivity]. Qed.

(** A validated request whose text is only whitespace is refused before
    the engine runs; the 400 is caught by the endpoint's own handler and
    answered as a 500 whose detail embeds it. *)
Theorem synthesize_endpoint_blank_text (env : TTSEnv) (text voice : string) (speed pitch : Q)
    (w : World) :
  (1 <= String.length text <= 1000)%nat ->
  (1 # 2 <= speed <= 2)%Q -> (1 # 2 <= pitch <= 2)%Q ->
  strip_is_empty text = true ->
  synthesize_endpoint true env text voice speed pitch w =
    (w, Ok (HTTPError 500 "Speech synthesis failed: 400: Text cannot be empty")).
Proof.
  intros Hl Hs Hp Hb. unfold synthesize_endpoint. rewrite validate_ok by assumption.
  unfold synthesize_handler. cbn [negb sr_text]. cbv zeta. rewrite Hb, orb_true_r.
  reflexivity.
Qed.

(** A text longer than 1000 characters is rejected by request validation
    (FastAPI's 422), before the endpoint checks for the service object and
    without touching the world; so the endpoint's own "Text too long" 400
    is never reached. *)
Theorem synthesize_endpoint_too_long (service_set : bool) (env : TTSEnv)
    (text voice : string) (speed pitch : Q) (w : World) :
  (1000 < String.length text)%nat ->
  synthesize_endpoint service_set env text voice speed pitch w = (w, Ok RequestValidationError).
Proof.
  intros H. unfold synthesize_endpoint. rewrite validate_too_long by exact H. reflexivity.
Qed.

(** From the decoded JSON fields on, [POST /api/v1/speech/synthesize]
    always answers, never with status 400 and never with the "Text too
    long" detail: a validation error, an error with status 500 or 503, or a
    WAV file.  FastAPI's own answer to a body it cannot decode as JSON comes
    before this point and is outside it. *)
Theorem synthesize_endpoint_answers (service_set : bool) (env : TTSEnv)
    (text voice : string) (speed pitch : Q) (w : World) :
  exists resp, snd (synthesize_endpoint service_set env text voice speed pitch w) = Ok resp /\
    match resp with
    | HTTPError code detail =>
        (code = 500%Z \/ code = 503%Z) /\
        detail <> "Speech synthesis failed: 400: Text too long. Maximum length: 1000 characters"
    | RequestValidationError | WavResponse _ => True
    | _ => False
    end.
Proof.
  unfold synthesize_endpoint.
  destruct (validate_synthesis_request text voice speed pitch) as [rq|] eqn:Ev;
    [|eexists; split; [reflexivity | exact I]].
  assert (Hlen : (String.length (sr_text rq) <= 1000)%nat).
  { unfold validate_synthesis_request in Ev.
    destruct (Nat.leb (String.length text) 1000) eqn:E;
      [|rewrite !andb_false_r, andb_false_l in Ev; discriminate].
    rewrite andb_true_r in Ev.
    destruct (_ && _)%bool in Ev; [|discriminate].
    injection Ev as <-. apply Nat.leb_le. exact E. }
  unfold synthesize_handler.
  destruct service_set; cbn [negb];
    [|eexists; split; [reflexivity | split; [right; reflexivity | discriminate]]].
  cbv zeta.
  destruct (String.eqb (sr_text rq) "" || strip_is_empty (sr_text rq))%bool;
    [eexists; split; [reflexivity | split; [left; reflexivity | discriminate]]|].
  replace (Nat.ltb 1000 (String.length (sr_text rq))) with false
    by (symmetry; apply Nat.ltb_ge; exact Hlen).
  destruct (synthesize_speech env (sr_text rq) (sr_voice rq) (sr_speed rq) (sr_pitch rq) w)
    as [w' [bytes|e]] eqn:Es.
  - eexists; split; [reflexivity | exact I].
  - eexists; split; [reflexivity | split; [left; reflexivity|]].
    match goal with
    | H : synthesize_speech _ _ _ _ _ w = (w', Raise e) |- _ =>
        destruct (synthesize_speech_raise _ _ _ _ _ _ _ _ H) as [-> | ->]
    end; simpl; discriminate.
Qed.

(** Without librosa, a valid request with non-blank text, sent to an
    initialized service whose Kokoro engine yields its segments, is always
    answered with a WAV file: the fallback resampling accepts every speed
    in [[0.5, 2.0]] and the encoding cannot fail. *)
Theorem synthesize_endpoint_wav (env : TTSEnv) (text voice : string) (speed pitch : Q)
    (w : World) (segs : list (list Q)) :
  (1 <= String.length text <= 1000)%nat ->
  (1 # 2 <= speed <= 2)%Q -> (1 # 2 <= pitch <= 2)%Q ->
  strip_is_empty text = false ->
  _initialized (svc w) = true -> kokoro_pipeline (svc w) <> None ->
  librosa_time_stretch env = None -> tts_segments env = Some segs ->
  exists audio w', synthesize_endpoint true env text voice speed pitch w =
    (w', Ok (WavResponse (_audio_to_wav_bytes audio 24000))).
Proof.
  intros Hl Hs Hp Hb Hi Hk Hlib Hseg.
  assert (Hsyn : exists audio w', synthesize_speech env text voice speed pitch w =
                   (w', Ok (_audio_to_wav_bytes audio 24000))).
  { rewrite synthesize_ready_unfold by assumption.
    unfold try_except, bind, _synthesize_sync, emit. rewrite Hseg.
    set (a0 := match segs with _ :: _ => List.concat segs | [] => silence end).
    assert (Ha : (match segs with
                  | _ :: _ => ret (List.concat segs)
                  | [] => ret silence
                  end : PyM (list Q)) = ret a0) by (destruct segs; reflexivity).
    rewrite Ha. cbv [bind ret].
    destruct (negb (Qeq_bool speed 1)).
    - destruct (adjust_speed_in_range env a0 speed Hlib (proj1 Hs)) as [out Hout].
      rewrite Hout. cbv [lift ret]. eexists; eexists; reflexivity.
    - eexists; eexists; reflexivity. }
  destruct Hsyn as (audio & w' & Hsyn).
  exists audio, w'. unfold synthesize_endpoint. rewrite validate_ok by assumption.
  unfold synthesize_handler. cbn [negb sr_text sr_voice sr_speed sr_pitch]. cbv zeta.
  rewrite (length_pos_neq_empty _ (proj1 Hl)), Hb.
  replace (Nat.ltb 1000 (String.length text)) with false
    by (symmetry; apply Nat.ltb_ge; exact (proj2 Hl)).
  cbn [orb]. rewrite Hsyn. reflexivity.
Qed.

(** ** Witnesses of the further properties *)

Ltac decide_q := unfold Qle, Qlt; simpl; lia.

Lemma transcribe_removes_written_staging_file_witness :
  ~ In (temp_name env_transcribe_ok)
       (files (fst (transcribe_audio env_transcribe_ok wav_magic "en" w_ready))).
Proof.
  apply (transcribe_removes_written_staging_file env_transcribe_ok wav_magic "en" w_ready
           (fst (transcribe_audio env_transcribe_ok wav_magic "en" w_ready))
           (snd (transcribe_audio env_transcribe_ok wav_magic "en" w_ready))).
  - reflexivity.
  - reflexivity.
  - simpl. tauto.
  - reflexivity.
Defined.

Lemma transcribe_unlink_failure_leaves_staging_file_witness :
  exists w', transcribe_audio env_unlink_fails wav_magic "en" w_ready =
               (w', Raise (RuntimeError "Transcription failed")) /\
             In (temp_name env_unlink_fails) (files w').
Proof.
  apply transcribe_unlink_failure_leaves_staging_file.
  - reflexivity.
  - simpl; discriminate.
  - reflexivity.
  - reflexivity.
  - reflexivity.
Defined.

Lemma requests_leave_files_witness :
  files (fst (transcribe_audio env_transcribe_ok wav_magic "en" w_ready)) = files w_ready /\
  files (fst (synthesize_speech env_tts_hello "Hi" "af_heart" 1%Q 1%Q w_ready)) = files w_ready.
Proof.
  split.
  - apply (proj2 (requests_leave_files w_ready)); [reflexivity | reflexivity | simpl; tauto].
  - apply (proj1 (requests_leave_files w_ready)).
Defined.

Lemma transcribe_error_kinds_witness :
  exists w' e, transcribe_audio env_write_fails wav_magic "auto" w_ready = (w', Raise e) /\
    (e = RuntimeError "Whisper model not initialized" \/ e = RuntimeError "Transcription failed").
Proof.
  do 2 eexists. split; [reflexivity|].
  eapply (transcribe_error_kinds env_write_fails wav_magic "auto" w_ready).
  reflexivity.
Defined.

Lemma synthesize_error_kinds_witness :
  exists w' e, synthesize_speech env_tts_empty_stretch_fails "Hi" "af_heart" 2%Q 1%Q w_ready
                 = (w', Raise e) /\
    (e = RuntimeError "Kokoro pipeline not initialized" \/ e = RuntimeError "Speech synthesis failed").
Proof.
  do 2 eexists. split; [reflexivity|].
  eapply (synthesize_error_kinds env_tts_empty_stretch_fails "Hi" "af_heart" 2%Q 1%Q w_ready).
  reflexivity.
Defined.

Lemma transcribe_audio_success_witness :
  exists w' tr, transcribe_audio env_transcribe_ok wav_magic "en" w_ready = (w', Ok tr) /\
  exists res txt,
    stt_result env_transcribe_ok = Some res /\ wr_text res = Some txt /\
    tr = {| tr_text := strip txt;
            tr_language := dict_get (wr_language res) "unknown";
            tr_confidence := _calculate_confidence res;
            tr_duration := dict_get (wr_duration res) 0%R |} /\
    log w' = (log w_ready ++ [RunTranscribe (temp_name env_transcribe_ok)
                          (if String.eqb "en" "auto" then None else Some "en")])%list.
Proof.
  do 2 eexists. split; [reflexivity|].
  eapply (transcribe_audio_success env_transcribe_ok wav_magic "en" w_ready).
  reflexivity.
Defined.

Lemma initialize_outcomes_witness :
  initialize env_loads_ok w_fresh =
    (mkWorld (mkService (Some 1%nat) (Some 2%nat) true) (files w_fresh)
             (log w_fresh ++ [LoadWhisper "turbo"; LoadKokoro "a"]), Ok tt) /\
  initialize env_whisper_fails w_fresh =
    (mkWorld (svc w_fresh) (files w_fresh) (log w_fresh ++ [LoadWhisper "turbo"]), Raise EngineError).
Proof.
  split.
  - apply (proj1 (initialize_outcomes env_loads_ok w_fresh eq_refl)); reflexivity.
  - apply (proj2 (initialize_outcomes env_whisper_fails w_fresh eq_refl)); reflexivity.
Defined.

Lemma cleanup_then_initialize_reloads_witness :
  let (w2, r) := initialize env_loads_ok (fst (cleanup true w_ready)) in
  r = Ok tt /\ svc w2 = mkService (Some 1%nat) (Some 2%nat) true /\ files w2 = files w_ready /\
  log w2 = (log w_ready ++ [EmptyCudaCache] ++ [LoadWhisper "turbo"; LoadKokoro "a"])%list.
Proof.
  apply (cleanup_then_initialize_reloads true env_loads_ok w_ready 1%nat 2%nat); reflexivity.
Defined.

Lemma reachable_handles_consistent_witness :
  let s := svc (run_ops [OpInitialize env_kokoro_fails; OpCleanup true;
                         OpInitialize env_loads_ok] (mkWorld new_service [] [])) in
  _initialized s = true /\ whisper_model s <> None.
Proof.
  pose proof (reachable_handles_consistent
                [OpInitialize env_kokoro_fails; OpCleanup true; OpInitialize env_loads_ok] [] [])
    as (Hk & Hw & _).
  split; [reflexivity | apply Hw; reflexivity].
Defined.



Lemma adjust_speed_fallback_noop_witness :
  _adjust_speed env_tts_hello [1 # 2; 0; -1 # 4]%Q (3 # 2)%Q = Ok [1 # 2; 0; -1 # 4]%Q /\
  _adjust_speed env_tts_hello [1 # 2; 0; -1 # 4]%Q (3 # 4)%Q = Ok [1 # 2; 0; -1 # 4]%Q.
Proof.
  split; apply adjust_speed_fallback_noop;
    [reflexivity | vm_compute; reflexivity | decide_q | decide_q
    |reflexivity | vm_compute; reflexivity | decide_q | decide_q].
Defined.

Lemma transcribe_endpoint_bad_content_type_witness :
  transcribe_endpoint true env_transcribe_ok (Some "text/plain") wav_magic "auto" w_ready =
    (w_ready, Ok (HTTPError 500 "Transcription failed: 400: Invalid audio file format")).
Proof.
  apply transcribe_endpoint_bad_content_type.
  intros ct H. injection H as <-. reflexivity.
Defined.

Lemma transcribe_endpoint_answers_witness :
  exists resp, snd (transcribe_endpoint true env_transcribe_ok (Some "audio/wav") wav_magic "en" w_ready)
                 = Ok resp /\
    match resp with
    | HTTPError code _ => code = 500%Z \/ code = 503%Z
    | TranscriptionJSON _ _ conf dur => (0 <= conf <= 1)%R /\ (0 <= dur)%R
    | _ => False
    end.
Proof. exact (transcribe_endpoint_answers true env_transcribe_ok (Some "audio/wav") wav_magic "en" w_ready). Defined.

Lemma transcribe_endpoint_success_witness :
  exists w' tr, transcribe_audio env_transcribe_ok wav_magic "en" w_ready = (w', Ok tr) /\
    transcribe_endpoint true env_transcribe_ok (Some "audio/wav") wav_magic "en" w_ready =
      (w', Ok (TranscriptionJSON (tr_text tr) (tr_language tr) (tr_confidence tr) (tr_duration tr))).
Proof.
  do 2 eexists. split; [reflexivity|].
  apply (proj1 (transcribe_endpoint_success env_transcribe_ok "audio/wav" wav_magic "en" w_ready _ _
                  eq_refl eq_refl)).
  simpl. lra.
Defined.

Lemma synthesize_endpoint_blank_text_witness :
  synthesize_endpoint true env_tts_hello "   " "af_heart" 1%Q 1%Q w_ready =
    (w_ready, Ok (HTTPError 500 "Speech synthesis failed: 400: Text cannot be empty")).
Proof.
  apply synthesize_endpoint_blank_text; [simpl; lia | split; decide_q | split; decide_q | reflexivity].
Defined.

Lemma synthesize_endpoint_too_long_witness :
  synthesize_endpoint false env_tts_hello long_text "af_heart" 1%Q 1%Q w_fresh =
    (w_fresh, Ok RequestValidationError).
Proof.
  apply synthesize_endpoint_too_long. apply Nat.ltb_lt. vm_compute. reflexivity.
Defined.

Lemma synthesize_endpoint_answers_witness :
  exists resp, snd (synthesize_endpoint true env_tts_empty_stretch_fails "Hi" "af_heart" 2%Q 1%Q w_ready)
                 = Ok resp /\
    match resp with
    | HTTPError code detail =>
        (code = 500%Z \/ code = 503%Z) /\
        detail <> "Speech synthesis failed: 400: Text too long. Maximum length: 1000 characters"
    | RequestValidationError | WavResponse _ => True
    | _ => False
    end.
Proof.
  exact (synthesize_endpoint_answers true env_tts_empty_stretch_fails "Hi" "af_heart" 2%Q 1%Q w_ready).
Defined.

Lemma synthesize_endpoint_wav_witness :
  exists audio w', synthesize_endpoint true env_tts_hello "Hello" "af_heart" 2%Q 1%Q w_ready =
    (w', Ok (WavResponse (_audio_to_wav_bytes audio 24000))).
Proof.
  apply (synthesize_endpoint_wav env_tts_hello "Hello" "af_heart" 2%Q 1%Q w_ready
           [[1 # 2; 0]; [-1 # 4]]%Q).
  - simpl; lia.
  - split; decide_q.
  - split; decide_q.
  - reflexivity.
  - reflexivity.
  - discriminate.
  - reflexivity.
  - reflexivity.
Defined.
